(** * fastapi/applications.py: the FastAPI application class

    A shallow embedding of [src/fastapi/applications.py].  The class is a thin
    layer over Starlette: its constructor stores the configuration on the
    instance, builds the router, and registers the documentation routes; its
    four methods produce the schema document and the documentation pages.

    Python objects are modelled the way the interpreter has them: an instance
    is its attribute dictionary, reading an attribute that was never assigned
    raises [AttributeError], and [if x:] tests Python truthiness. *)

From stdpp Require Import base option list gmap strings.

Set Warnings "-register-all".

Open Scope string_scope.
Open Scope list_scope.

(** ** Python values, truthiness and exceptions *)

Module Py.

(** The values that flow through this file.  [VClass] is a class object such
    as [JSONResponse]; [VInstance] is a freshly made instance of the named
    class; [VObj] is any other opaque object (a middleware, a handler, a
    lifecycle hook), known only by its identity. *)
Inductive value : Type :=
| VNone
| VBool (b : bool)
| VStr (s : string)
| VList (items : list value)
| VDict (items : list (string * value))
| VClass (name : string)
| VInstance (cls : string)
| VObj (id : nat).

(** [bool(v)]: [None], [False], the empty string and the empty containers are
    false; every other value here is true. *)
Definition truthy (v : value) : bool :=
  match v with
  | VNone => false
  | VBool b => b
  | VStr s => match s with EmptyString => false | String _ _ => true end
  | VList items => match items with [] => false | _ :: _ => true end
  | VDict items => match items with [] => false | _ :: _ => true end
  | VClass _ => true
  | VInstance _ => true
  | VObj _ => true
  end.

(** An [Optional[str]] argument as a value. *)
Definition of_optional_str (o : option string) : value :=
  match o with
  | None => VNone
  | Some s => VStr s
  end.

Inductive exn : Type :=
| AttributeError (attr : string)
| NameError (name : string)
| TypeError (msg : string)
| AssertionError (msg : string).

Inductive outcome (A : Type) : Type :=
| Ok (a : A)
| Raise (e : exn).

Arguments Ok {A} a.
Arguments Raise {A} e.

End Py.

Import Py.

(** ** What Starlette provides: routes, the router, HTML responses *)

(** The callable a route dispatches to: a bound method of the application
    itself (named by the method), or some callable supplied by the user. *)
Inductive handler : Type :=
| Method (name : string)
| UserCallable (id : nat).

#[global] Instance handler_eq_dec : EqDecision handler.
Proof. solve_decision. Defined.

Record Route : Type := {
  path : value;
  endpoint : handler;
  include_in_schema : bool
}.

Record Router : Type := {
  routes : list Route;
  router_on_startup : value;
  router_on_shutdown : value
}.

Record HTMLResponse : Type := { content : string }.

(** ** The instance and the monad its methods run in *)

(** An instance: the attribute dictionary, and the router it owns ([None]
    before the constructor has assigned [self.router]). *)
Record Instance : Type := {
  dict : gmap string value;
  router : option Router
}.

(** A freshly allocated object, before [__init__] runs. *)
Definition blank : Instance := {| dict := ∅; router := None |}.

(** Methods are state transformers that return a result or raise; the state
    reached when an exception is raised is the state at the raise. *)
Definition M (A : Type) : Type := Instance -> outcome A * Instance.

Definition ret {A : Type} (a : A) : M A := fun s => (Ok a, s).

Definition raise {A : Type} (e : exn) : M A := fun s => (Raise e, s).

Definition bind {A B : Type} (m : M A) (k : A -> M B) : M B :=
  fun s =>
    match m s with
    | (Ok a, s') => k a s'
    | (Raise e, s') => (Raise e, s')
    end.

Declare Scope py_scope.
Delimit Scope py_scope with py.
Notation "x <- m ;; k" := (bind m (fun x => k))
  (at level 100, m at next level, right associativity) : py_scope.
Notation "m ;; k" := (bind m (fun _ => k))
  (at level 100, right associativity) : py_scope.
Open Scope py_scope.

(** [self.name] *)
Definition getattr (name : string) : M value :=
  fun s =>
    match dict s !! name with
    | Some v => (Ok v, s)
    | None => (Raise (AttributeError name), s)
    end.

(** [self.name = v] *)
Definition setattr (name : string) (v : value) : M unit :=
  fun s => (Ok tt, {| dict := <[name := v]> (dict s); router := router s |}).

(** [self.router] *)
Definition get_router : M Router :=
  fun s =>
    match router s with
    | Some r => (Ok r, s)
    | None => (Raise (AttributeError "router"), s)
    end.

(** [self.router = r] *)
Definition set_router (r : Router) : M unit :=
  fun s => (Ok tt, {| dict := dict s; router := Some r |}).

(** [x + " literal"]: string concatenation; a left operand that is not a
    string has no [+] with a string and raises [TypeError]. *)
Definition add_str (x : value) (suffix : string) : M value :=
  match x with
  | VStr s => ret (VStr (s +:+ suffix))
  | _ => raise (TypeError "unsupported operand type(s) for +")
  end.

(** ** The inherited Starlette behaviour the class relies on *)

Module Starlette.

(** [[] if x is None else list(x)]: an absent sequence is the empty list, a
    given one is copied.  Arguments are taken to have their annotated
    types, so the copy is the sequence itself. *)
Definition list_copy (x : value) : value :=
  match x with
  | VNone => VList []
  | _ => x
  end.

(** [{} if x is None else dict(x)], under the same reading. *)
Definition dict_copy (x : value) : value :=
  match x with
  | VNone => VDict []
  | _ => x
  end.

(** [Router(routes, on_startup=..., on_shutdown=...)]: the route list and
    the two hook lists, each empty when absent. *)
Definition Router_new (rs : option (list Route)) (on_startup on_shutdown : value)
  : Router :=
  {| routes := default [] rs;
     router_on_startup := list_copy on_startup;
     router_on_shutdown := list_copy on_shutdown |}.

(** [Starlette.__init__]: the base constructor stores the debug flag, makes
    the application state, replaces the router by one built from the routes
    and hooks it is given, stores a copy of the handler table and of the
    middleware list, and builds the middleware stack. *)
Definition __init__ (debug : bool) (rs : list Route)
    (exception_handlers on_startup on_shutdown middleware : value) : M unit :=
  setattr "_debug" (VBool debug) ;;
  setattr "state" (VInstance "State") ;;
  set_router (Router_new (Some rs) on_startup on_shutdown) ;;
  setattr "exception_handlers" (dict_copy exception_handlers) ;;
  setattr "user_middleware" (list_copy middleware) ;;
  setattr "middleware_stack" (VInstance "ServerErrorMiddleware").

(** [Route(path, ...)] checks its path with
    [assert path.startswith("/")]: a string that does not begin with a slash
    (the empty string included) fails the assertion, and a value that is
    not a string, such as [None], has no [startswith]. *)
Definition check_path (p : value) : option exn :=
  match p with
  | VStr s =>
      if String.prefix "/" s then None
      else Some (AssertionError "Routed paths must start with '/'")
  | _ => Some (AttributeError "startswith")
  end.

(** [self.add_route(path, route, include_in_schema=...)]: builds the route
    and appends it to the router's list; when the path is refused it raises
    and nothing is appended. *)
Definition add_route (p : value) (route : handler) (in_schema : bool) : M unit :=
  r <- get_router ;;
  match check_path p with
  | Some e => raise e
  | None =>
      set_router {| routes := routes r ++ [ {| path := p; endpoint := route;
                                               include_in_schema := in_schema |} ];
                    router_on_startup := router_on_startup r;
                    router_on_shutdown := router_on_shutdown r |}
  end.

(** The [routes] property: [self.router.routes]. *)
Definition routes : M (list Route) :=
  r <- get_router ;;
  ret (routes r).

End Starlette.

(** ** The constructor's arguments *)

(** A call [FastAPI(...)]: each parameter is either passed ([Some]) or left
    out ([None], the default of the signature applies).  The field types are
    the parameter annotations; [extra] is the bag of further keywords. *)
Record Args : Type := {
  debug : option bool;
  arg_routes : option (option (list Route));
  title : option string;
  description : option string;
  version : option string;
  openapi_url : option (option string);
  openapi_tags : option value;
  servers : option value;
  default_response_class : option value;
  docs_url : option (option string);
  redoc_url : option (option string);
  swagger_ui_oauth2_redirect_url : option (option string);
  swagger_ui_init_oauth : option value;
  middleware : option value;
  exception_handlers : option value;
  on_startup : option value;
  on_shutdown : option value;
  extra : list (string * value)
}.

(** The call with no argument at all: [FastAPI()]. *)
Definition no_args : Args :=
  {| debug := None; arg_routes := None; title := None; description := None;
     version := None; openapi_url := None; openapi_tags := None;
     servers := None; default_response_class := None; docs_url := None;
     redoc_url := None; swagger_ui_oauth2_redirect_url := None;
     swagger_ui_init_oauth := None; middleware := None;
     exception_handlers := None; on_startup := None; on_shutdown := None;
     extra := [] |}.

(** ** class FastAPI(Starlette) *)

Module FastAPI.

(** [__init__], lines 42-129.  The parameter defaults are those of the
    signature. *)
Definition __init__ (a : Args) : M unit :=
  let debug := default false (debug a) in
  let title := default "FastAPI" (title a) in
  let description := default "" (description a) in
  let version := default "0.1.0" (version a) in
  let openapi_url := default (Some "/openapi.json") (openapi_url a) in
  let openapi_tags := default VNone (openapi_tags a) in
  let servers := default VNone (servers a) in
  let default_response_class :=
    default (VClass "JSONResponse") (default_response_class a) in
  let docs_url := default (Some "/docs") (docs_url a) in
  let redoc_url := default (Some "/redoc") (redoc_url a) in
  let swagger_ui_oauth2_redirect_url :=
    default (Some "/docs/oauth2-redirect") (swagger_ui_oauth2_redirect_url a) in
  let swagger_ui_init_oauth := default VNone (swagger_ui_init_oauth a) in
  let middleware := default VNone (middleware a) in
  let exception_handlers := default VNone (exception_handlers a) in
  let on_startup := default VNone (on_startup a) in
  let on_shutdown := default VNone (on_shutdown a) in
  setattr "_debug" (VBool debug) ;;
  set_router (Starlette.Router_new (default None (arg_routes a))
                                   on_startup on_shutdown) ;;
  setattr "title" (VStr title) ;;
  setattr "description" (VStr description) ;;
  setattr "version" (VStr version) ;;
  setattr "openapi_url" (of_optional_str openapi_url) ;;
  setattr "openapi_tags" openapi_tags ;;
  setattr "servers" servers ;;
  setattr "default_response_class" default_response_class ;;
  setattr "docs_url" (of_optional_str docs_url) ;;
  setattr "redoc_url" (of_optional_str redoc_url) ;;
  setattr "swagger_ui_oauth2_redirect_url"
          (of_optional_str swagger_ui_oauth2_redirect_url) ;;
  setattr "swagger_ui_init_oauth" swagger_ui_init_oauth ;;
  setattr "middleware" middleware ;;
  setattr "exception_handlers" exception_handlers ;;
  setattr "extra" (VDict (extra a)) ;;
  r <- get_router ;;
  Starlette.__init__ debug (routes r) exception_handlers on_startup
                     on_shutdown middleware ;;
  c1 <- getattr "openapi_url" ;;
  (if truthy c1 then
     p <- getattr "openapi_url" ;;
     Starlette.add_route p (Method "openapi") false
   else ret tt) ;;
  c2 <- getattr "docs_url" ;;
  (if truthy c2 then
     p <- getattr "docs_url" ;;
     Starlette.add_route p (Method "swagger_ui_html") false ;;
     q <- getattr "swagger_ui_oauth2_redirect_url" ;;
     Starlette.add_route q (Method "swagger_ui_oauth2_redirect_html") false
   else ret tt) ;;
  c3 <- getattr "redoc_url" ;;
  (if truthy c3 then
     p <- getattr "redoc_url" ;;
     Starlette.add_route p (Method "redoc_html") false
   else ret tt).

(** The external collaborators of the methods: the schema generator of
    [fastapi.openapi.utils] and the three page generators of
    [fastapi.openapi.docs].  They are pure functions of their arguments. *)
Section Methods.

Variable get_openapi :
  value -> value -> value -> list Route -> value -> value -> value.
Variable get_swagger_ui_html : value -> value -> value -> value -> HTMLResponse.
Variable get_swagger_ui_oauth2_redirect_html : unit -> HTMLResponse.
Variable get_redoc_html : value -> value -> HTMLResponse.

(** [openapi], lines 131-147. *)
Definition openapi : M value :=
  cached <- getattr "openapi_schema" ;;
  (if negb (truthy cached) then
     t <- getattr "title" ;;
     v <- getattr "version" ;;
     d <- getattr "description" ;;
     rs <- Starlette.routes ;;
     tags <- getattr "openapi_tags" ;;
     srv <- getattr "servers" ;;
     setattr "openapi_schema" (get_openapi t v d rs tags srv)
   else ret tt) ;;
  getattr "openapi_schema".

(** [swagger_ui_html], lines 149-161. *)
Definition swagger_ui_html : M HTMLResponse :=
  u <- getattr "openapi_url" ;;
  t <- getattr "title" ;;
  t' <- add_str t " - Swagger UI" ;;
  r <- getattr "swagger_ui_oauth2_redirect_url" ;;
  o <- getattr "swagger_ui_init_oauth" ;;
  ret (get_swagger_ui_html u t' r o).

(** [swagger_ui_oauth2_redirect_html], lines 163-170. *)
Definition swagger_ui_oauth2_redirect_html : M HTMLResponse :=
  ret (get_swagger_ui_oauth2_redirect_html tt).

(** [redoc_html], lines 172-181. *)
Definition redoc_html : M HTMLResponse :=
  u <- getattr "openapi_url" ;;
  t <- getattr "title" ;;
  t' <- add_str t " - ReDoc" ;;
  ret (get_redoc_html u t').

(** The operations a caller can perform on an application: the four methods
    of the class and the inherited route registration. *)
Inductive operation : Type :=
| CallOpenapi
| CallSwaggerUiHtml
| CallSwaggerUiOauth2RedirectHtml
| CallRedocHtml
| CallAddRoute (p : value) (route : handler) (in_schema : bool).

(** The state an operation leaves behind, whatever it returned or raised. *)
Definition step (op : operation) (s : Instance) : Instance :=
  match op with
  | CallOpenapi => snd (openapi s)
  | CallSwaggerUiHtml => snd (swagger_ui_html s)
  | CallSwaggerUiOauth2RedirectHtml => snd (swagger_ui_oauth2_redirect_html s)
  | CallRedocHtml => snd (redoc_html s)
  | CallAddRoute p route in_schema => snd (Starlette.add_route p route in_schema s)
  end.

Definition steps (ops : list operation) (s : Instance) : Instance :=
  fold_left (fun s op => step op s) ops s.

End Methods.

(** [FastAPI(...)]: allocate a blank object and run the constructor on it. *)
Definition construct (a : Args) : Instance := snd (__init__ a blank).

End FastAPI.

(** ** Loading the module

    The file is executed top to bottom when it is imported.  An import binds
    names in the module namespace; a [class] statement evaluates its bases and
    runs its body; a [def] statement evaluates the parameter defaults and then
    the annotations of its signature, in order, and only then binds the
    function: the file has no [from __future__ import annotations], so its
    annotations are ordinary expressions evaluated at definition time, as in
    every Python 3 release before 3.14.  A name that is bound neither in the
    enclosing namespaces nor in the builtins raises [NameError].  Imports of
    other modules are taken to succeed and to provide the names asked for. *)

Module Loader.

(** Expressions as far as signatures use them: a name, a literal ([None],
    [False], a string), a subscription [e[x, y]]. *)
Inductive expr : Type :=
| Name (id : string)
| Constant
| Subscript (e : expr) (slice : list expr).

Record param : Type := {
  param_name : string;
  annotation : option expr;
  default_value : option expr
}.

(** Statements.  [ImportFrom] lists the names the import binds (the [as]
    name where there is one). *)
Inductive stmt : Type :=
| Expr (e : expr)
| ImportFrom (module : string) (names : list string)
| FunctionDef (name : string) (params : list param) (returns : option expr)
| ClassDef (name : string) (bases : list expr) (body : list stmt).

(** Evaluating an expression for its name lookups: the subscripted value
    first, then the subscripts from left to right. *)
Fixpoint eval (env : gset string) (e : expr) : outcome unit :=
  match e with
  | Name id => if decide (id ∈ env) then Ok tt else Raise (NameError id)
  | Constant => Ok tt
  | Subscript e slice =>
      match eval env e with
      | Ok _ =>
          (fix eval_all (l : list expr) : outcome unit :=
             match l with
             | [] => Ok tt
             | x :: l' =>
                 match eval env x with
                 | Ok _ => eval_all l'
                 | Raise ex => Raise ex
                 end
             end) slice
      | Raise ex => Raise ex
      end
  end.

Fixpoint eval_list (env : gset string) (l : list expr) : outcome unit :=
  match l with
  | [] => Ok tt
  | x :: l' =>
      match eval env x with
      | Ok _ => eval_list env l'
      | Raise ex => Raise ex
      end
  end.

Definition eval_opt (env : gset string) (o : option expr) : outcome unit :=
  match o with
  | None => Ok tt
  | Some e => eval env e
  end.

(** A [def]: defaults first, then parameter annotations, then the return
    annotation. *)
Definition eval_signature (env : gset string) (ps : list param)
    (returns : option expr) : outcome unit :=
  match eval_list env (omap default_value ps) with
  | Ok _ =>
      match eval_list env (omap annotation ps) with
      | Ok _ => eval_opt env returns
      | Raise ex => Raise ex
      end
  | Raise ex => Raise ex
  end.

(** Executing a statement yields the namespace extended with what it binds.
    The body of a class runs in a namespace of its own, on top of the
    enclosing one; once it has run, only the class name is bound outside. *)
Fixpoint exec (env : gset string) (st : stmt) : outcome (gset string) :=
  match st with
  | Expr e =>
      match eval env e with
      | Ok _ => Ok env
      | Raise ex => Raise ex
      end
  | ImportFrom _ names => Ok (list_to_set names ∪ env)
  | FunctionDef name ps returns =>
      match eval_signature env ps returns with
      | Ok _ => Ok ({[ name ]} ∪ env)
      | Raise ex => Raise ex
      end
  | ClassDef name bases body =>
      match eval_list env bases with
      | Ok _ =>
          match
            (fix exec_body (env' : gset string) (l : list stmt)
               : outcome (gset string) :=
               match l with
               | [] => Ok env'
               | s :: l' =>
                   match exec env' s with
                   | Ok env'' => exec_body env'' l'
                   | Raise ex => Raise ex
                   end
               end) env body
          with
          | Ok _ => Ok ({[ name ]} ∪ env)
          | Raise ex => Raise ex
          end
      | Raise ex => Raise ex
      end
  end.

Fixpoint exec_all (env : gset string) (l : list stmt) : outcome (gset string) :=
  match l with
  | [] => Ok env
  | s :: l' =>
      match exec env s with
      | Ok env' => exec_all env' l'
      | Raise ex => Raise ex
      end
  end.

(** The builtin names the file can rely on without importing them. *)
Definition builtins : gset string :=
  list_to_set
    [ "bool"; "int"; "float"; "str"; "bytes"; "list"; "dict"; "set"; "tuple";
      "frozenset"; "object"; "type"; "super"; "callable"; "len"; "print";
      "isinstance"; "issubclass"; "getattr"; "setattr"; "hasattr";
      "Exception"; "BaseException"; "TypeError"; "ValueError"; "NameError";
      "AttributeError"; "KeyError"; "RuntimeError"; "NotImplementedError" ].

(** Importing a module: its statements run in a namespace that starts with
    the builtins. *)
Definition load (body : list stmt) : outcome (gset string) :=
  exec_all builtins body.

(** Whether a load completed and left [name] bound in the module. *)
Definition binds (name : string) (r : outcome (gset string)) : bool :=
  match r with
  | Ok env => bool_decide (name ∈ env)
  | Raise _ => false
  end.

(** Shorthands for the annotations of the file. *)
Definition sub (f : string) (args : list expr) : expr := Subscript (Name f) args.
Definition Optional (e : expr) : expr := sub "Optional" [e].
Definition plain (n : string) (ann : expr) : param :=
  {| param_name := n; annotation := Some ann; default_value := None |}.
Definition keyword (n : string) (ann : expr) (dflt : expr) : param :=
  {| param_name := n; annotation := Some ann; default_value := Some dflt |}.
Definition self : param :=
  {| param_name := "self"; annotation := None; default_value := None |}.

(** The signature of [FastAPI.__init__], lines 42-64. *)
Definition init_params : list param :=
  [ self;
    keyword "debug" (Name "bool") Constant;
    keyword "routes" (Optional (sub "List" [Name "BaseRoute"])) Constant;
    keyword "title" (Name "str") Constant;
    keyword "description" (Name "str") Constant;
    keyword "version" (Name "str") Constant;
    keyword "openapi_url" (Optional (Name "str")) Constant;
    keyword "openapi_tags"
      (Optional (sub "List" [sub "Dict" [Name "str"; Name "Any"]])) Constant;
    keyword "servers"
      (Optional (sub "List"
         [sub "Dict" [Name "str"; sub "Union" [Name "str"; Name "Any"]]]))
      Constant;
    keyword "default_response_class" (Name "type") (Name "JSONResponse");
    keyword "docs_url" (Optional (Name "str")) Constant;
    keyword "redoc_url" (Optional (Name "str")) Constant;
    keyword "swagger_ui_oauth2_redirect_url" (Optional (Name "str")) Constant;
    keyword "swagger_ui_init_oauth"
      (Optional (sub "Dict" [Name "str"; Name "Any"])) Constant;
    keyword "middleware" (Optional (sub "Sequence" [Name "Middleware"])) Constant;
    keyword "exception_handlers"
      (Optional (sub "Dict"
         [sub "Union" [Name "int"; sub "type" [Name "Exception"]]; Name "Any"]))
      Constant;
    keyword "on_startup" (Optional (sub "Sequence" [Name "Callable"])) Constant;
    keyword "on_shutdown" (Optional (sub "Sequence" [Name "Callable"])) Constant;
    plain "extra" (Name "Any") ].

(** The class statement, lines 35-181. *)
Definition class_FastAPI : stmt :=
  ClassDef "FastAPI" [Name "Starlette"]
    [ Expr Constant;
      FunctionDef "__init__" init_params (Some Constant);
      FunctionDef "openapi" [self] (Some (sub "Dict" [Name "str"; Name "Any"]));
      FunctionDef "swagger_ui_html" [self] (Some (Name "HTMLResponse"));
      FunctionDef "swagger_ui_oauth2_redirect_html" [self]
        (Some (Name "HTMLResponse"));
      FunctionDef "redoc_html" [self] (Some (Name "HTMLResponse")) ].

(** The import block, lines 4-32. *)
Definition imports : list stmt :=
  [ ImportFrom "typing"
      ["Any"; "AsyncGenerator"; "Dict"; "List"; "Optional"; "Sequence";
       "Tuple"; "Union"];
    ImportFrom "fastapi" ["routing"];
    ImportFrom "fastapi.concurrency" ["run_in_threadpool"];
    ImportFrom "fastapi.encoders" ["DictIntStrAny"; "SetIntStr"];
    ImportFrom "fastapi.exceptions" ["RequestValidationError"];
    ImportFrom "fastapi.logger" ["logger"];
    ImportFrom "fastapi.openapi.docs"
      ["get_redoc_html"; "get_swagger_ui_html";
       "get_swagger_ui_oauth2_redirect_html"];
    ImportFrom "fastapi.openapi.utils" ["get_openapi"];
    ImportFrom "fastapi.params" ["Depends"];
    ImportFrom "fastapi.types" ["ASGIApp"; "ASGIInstance"; "Scope"];
    ImportFrom "starlette.applications" ["Starlette"];
    ImportFrom "starlette.exceptions" ["StarletteHTTPException"];
    ImportFrom "starlette.exceptions" ["ExceptionMiddleware"];
    ImportFrom "starlette.middleware" ["Middleware"];
    ImportFrom "starlette.middleware.base" ["BaseHTTPMiddleware"];
    ImportFrom "starlette.middleware.cors" ["CORSMiddleware"];
    ImportFrom "starlette.middleware.errors" ["ServerErrorMiddleware"];
    ImportFrom "starlette.middleware.gzip" ["GZipMiddleware"];
    ImportFrom "starlette.middleware.httpsredirect" ["HTTPSRedirectMiddleware"];
    ImportFrom "starlette.middleware.trustedhost" ["TrustedHostMiddleware"];
    ImportFrom "starlette.requests" ["Request"];
    ImportFrom "starlette.responses" ["HTMLResponse"; "JSONResponse"; "Response"];
    ImportFrom "starlette.routing" ["BaseRoute"; "Match"];
    ImportFrom "starlette.types" ["Receive"; "StarletteScope"; "Send"] ].

(** The whole file: docstring, imports, class. *)
Definition applications : list stmt :=
  Expr Constant :: imports ++ [class_FastAPI].

End Loader.

(** ** Observations the statements are written with *)

(** The routes the caller handed to the constructor. *)
Definition user_routes (a : Args) : list Route :=
  default [] (default None (arg_routes a)).

(** The route list of an instance, as the [routes] property returns it. *)
Definition routes_of (s : Instance) : outcome (list Route) :=
  fst (Starlette.routes s).

(** Some route of [rs] dispatches to [h]. *)
Definition registers (h : handler) (rs : list Route) : Prop :=
  ∃ r, r ∈ rs ∧ endpoint r = h.

(** The attribute [name] of [s] holds a non-empty (truthy) value. *)
Definition field_set (name : string) (s : Instance) : Prop :=
  ∃ v, dict s !! name = Some v ∧ truthy v = true.

(** The text [u] occurs in [html]. *)
Definition embeds (u html : string) : Prop :=
  ∃ pre post, html = pre +:+ (u +:+ post).

(** A schema generator that looks only at the routes marked for inclusion. *)
Definition reads_visible_routes_only
    (gen : value -> value -> value -> list Route -> value -> value -> value)
  : Prop :=
  ∀ t v d rs tags srv,
    gen t v d rs tags srv = gen t v d (List.filter include_in_schema rs) tags srv.

(** A documentation route: hidden from the schema. *)
Definition doc_route (p : value) (m : string) : Route :=
  {| path := p; endpoint := Method m; include_in_schema := false |}.

(** The documentation routes that a given configuration leads the
    constructor to add, in registration order. *)
Definition doc_routes (a : Args) : list Route :=
  let openapi_url :=
    of_optional_str (default (Some "/openapi.json") (openapi_url a)) in
  let docs_url := of_optional_str (default (Some "/docs") (docs_url a)) in
  let redoc_url := of_optional_str (default (Some "/redoc") (redoc_url a)) in
  let redirect_url :=
    of_optional_str (default (Some "/docs/oauth2-redirect")
                             (swagger_ui_oauth2_redirect_url a)) in
  ((if truthy openapi_url then [doc_route openapi_url "openapi"] else []) ++
   (if truthy docs_url
    then [doc_route docs_url "swagger_ui_html";
          doc_route redirect_url "swagger_ui_oauth2_redirect_html"]
    else []) ++
   (if truthy redoc_url then [doc_route redoc_url "redoc_html"] else [])).

(** The instance [s] with [more] appended to the routes of its router [r]. *)
Definition with_routes (s : Instance) (r : Router) (more : list Route)
  : Instance :=
  {| dict := dict s;
     router := Some {| routes := routes r ++ more;
                       router_on_startup := router_on_startup r;
                       router_on_shutdown := router_on_shutdown r |} |}.

(** A computation that never changes the instance, whether it returns or
    raises. *)
Definition readonly {A : Type} (m : M A) : Prop := ∀ s, snd (m s) = s.

(** Two instances agree on the attributes named in [ks]. *)
Definition agree_on (ks : list string) (s s' : Instance) : Prop :=
  ∀ k, k ∈ ks → dict s !! k = dict s' !! k.

(** The outcome of [m] is a function of the attributes named in [ks] alone. *)
Definition reads {A : Type} (ks : list string) (m : M A) : Prop :=
  ∀ s s', agree_on ks s s' → fst (m s) = fst (m s').

(** Each documentation route is registered exactly when its own field is
    set: the reading under which every route has a guard of its own. *)
Definition registers_by_own_field (a : Args) : Prop :=
  let s := FastAPI.construct a in
  ∃ added,
    routes_of s = Ok (user_routes a ++ added) ∧
    (registers (Method "openapi") added ↔ field_set "openapi_url" s) ∧
    (registers (Method "swagger_ui_html") added ↔ field_set "docs_url" s) ∧
    (registers (Method "swagger_ui_oauth2_redirect_html") added ↔
       field_set "swagger_ui_oauth2_redirect_url" s) ∧
    (registers (Method "redoc_html") added ↔ field_set "redoc_url" s).

(** The attribute dictionary the constructor builds: its own assignments,
    then those of the base constructor. *)
Definition configured_dict (a : Args) : gmap string value :=
  <["middleware_stack" := VInstance "ServerErrorMiddleware"]>
  (<["user_middleware" := Starlette.list_copy (default VNone (middleware a))]>
  (<["exception_handlers" :=
       Starlette.dict_copy (default VNone (exception_handlers a))]>
  (<["state" := VInstance "State"]>
  (<["_debug" := VBool (default false (debug a))]>
  (<["extra" := VDict (extra a)]>
  (<["exception_handlers" := default VNone (exception_handlers a)]>
  (<["middleware" := default VNone (middleware a)]>
  (<["swagger_ui_init_oauth" := default VNone (swagger_ui_init_oauth a)]>
  (<["swagger_ui_oauth2_redirect_url" :=
       of_optional_str (default (Some "/docs/oauth2-redirect")
                                (swagger_ui_oauth2_redirect_url a))]>
  (<["redoc_url" := of_optional_str (default (Some "/redoc") (redoc_url a))]>
  (<["docs_url" := of_optional_str (default (Some "/docs") (docs_url a))]>
  (<["default_response_class" :=
       default (VClass "JSONResponse") (default_response_class a)]>
  (<["servers" := default VNone (servers a)]>
  (<["openapi_tags" := default VNone (openapi_tags a)]>
  (<["openapi_url" :=
       of_optional_str (default (Some "/openapi.json") (openapi_url a))]>
  (<["version" := VStr (default "0.1.0" (version a))]>
  (<["description" := VStr (default "" (description a))]>
  (<["title" := VStr (default "FastAPI" (title a))]>
  (<["_debug" := VBool (default false (debug a))]> ∅))))))))))))))))))).

(** The router the constructor builds, before any documentation route. *)
Definition configured_router (a : Args) : Router :=
  {| routes := user_routes a;
     router_on_startup := Starlette.list_copy (default VNone (on_startup a));
     router_on_shutdown := Starlette.list_copy (default VNone (on_shutdown a)) |}.

(** Of the routes handed to [add_route] one after the other, those that are
    registered: the ones before the first whose path is refused. *)
Fixpoint accepted (rs : list Route) : list Route :=
  match rs with
  | [] => []
  | r :: rs' =>
      match Starlette.check_path (path r) with
      | None => r :: accepted rs'
      | Some _ => []
      end
  end.

(** The exception that stops the registration, if any. *)
Fixpoint rejection (rs : list Route) : option exn :=
  match rs with
  | [] => None
  | r :: rs' =>
      match Starlette.check_path (path r) with
      | None => rejection rs'
      | Some e => Some e
      end
  end.

Definition outcome_of (o : option exn) : outcome unit :=
  match o with
  | None => Ok tt
  | Some e => Raise e
  end.

(** The four URL attributes. *)
Definition url_attributes : list string :=
  [ "openapi_url"; "docs_url"; "swagger_ui_oauth2_redirect_url"; "redoc_url" ].

(** Every URL attribute of [s] that is set holds a path that [add_route]
    takes: a string beginning with a slash. *)
Definition urls_are_paths (s : Instance) : Prop :=
  ∀ k v, k ∈ url_attributes → dict s !! k = Some v → truthy v = true →
         Starlette.check_path v = None.

(** [FastAPI(...)] returned: the constructor ran to its end. *)
Definition constructed (a : Args) : Prop :=
  fst (FastAPI.__init__ a blank) = Ok tt.

(** ** Sample collaborators and sample calls, for concrete runs *)

Definition text (v : value) : string :=
  match v with
  | VStr s => s
  | _ => ""
  end.

Definition sample_get_openapi (t v d : value) (rs : list Route)
    (tags srv : value) : value :=
  VDict [ ("openapi", VStr "3.0.2");
          ("info", VDict [("title", t); ("version", v); ("description", d)]);
          ("paths", VList (map path (List.filter include_in_schema rs)));
          ("tags", tags);
          ("servers", srv) ].

Definition sample_get_swagger_ui_html (u t r o : value) : HTMLResponse :=
  {| content := "<script>SwaggerUIBundle({url: '" +:+
                (text u +:+ ("', oauth2RedirectUrl: '" +:+
                (text r +:+ ("'})</script><title>" +:+ text t)))) |}.

Definition sample_get_swagger_ui_oauth2_redirect_html (_ : unit) : HTMLResponse :=
  {| content := "<script>window.opener.swaggerUIRedirectOauth2</script>" |}.

Definition sample_get_redoc_html (u t : value) : HTMLResponse :=
  {| content := "<redoc spec-url='" +:+ (text u +:+ ("'></redoc><title>" +:+ text t)) |}.

(** [FastAPI(docs_url=None)] *)
Definition docs_disabled : Args :=
  {| debug := None; arg_routes := None; title := None; description := None;
     version := None; openapi_url := None; openapi_tags := None;
     servers := None; default_response_class := None; docs_url := Some None;
     redoc_url := None; swagger_ui_oauth2_redirect_url := None;
     swagger_ui_init_oauth := None; middleware := None;
     exception_handlers := None; on_startup := None; on_shutdown := None;
     extra := [] |}.

(** [FastAPI(title="Inventory", description="Stock levels", version="2.1")] *)
Definition titled : Args :=
  {| debug := None; arg_routes := None; title := Some "Inventory";
     description := Some "Stock levels"; version := Some "2.1";
     openapi_url := None; openapi_tags := None;
     servers := None; default_response_class := None; docs_url := None;
     redoc_url := None; swagger_ui_oauth2_redirect_url := None;
     swagger_ui_init_oauth := None; middleware := None;
     exception_handlers := None; on_startup := None; on_shutdown := None;
     extra := [] |}.

(** A user route, visible in the schema. *)
Definition items_route : Route :=
  {| path := VStr "/items"; endpoint := UserCallable 0;
     include_in_schema := true |}.

(** [FastAPI(routes=[items_route])] *)
Definition with_items : Args :=
  {| debug := None; arg_routes := Some (Some [items_route]); title := None;
     description := None; version := None;
     openapi_url := None; openapi_tags := None;
     servers := None; default_response_class := None; docs_url := None;
     redoc_url := None; swagger_ui_oauth2_redirect_url := None;
     swagger_ui_init_oauth := None; middleware := None;
     exception_handlers := None; on_startup := None; on_shutdown := None;
     extra := [] |}.

(** [app = FastAPI(); app.openapi_schema = None]: an application whose cache
    attribute a caller has assigned by hand. *)
Definition primed : Instance :=
  snd (setattr "openapi_schema" VNone (FastAPI.construct no_args)).


(** ** Further observations *)

(** [app = FastAPI(...); app.openapi_schema = None]: the application built
    from [a], with the cache attribute assigned by the caller. *)
Definition primed_with (a : Args) : Instance :=
  snd (setattr "openapi_schema" VNone (FastAPI.construct a)).

(** One [add_route] call per route of [rs], in order. *)
Definition add_routes (rs : list Route) : list FastAPI.operation :=
  map (λ r, FastAPI.CallAddRoute (path r) (endpoint r) (include_in_schema r)) rs.

(** The four documentation handlers, in the order of the constructor's
    [add_route] calls. *)
Definition doc_handlers : list handler :=
  [ Method "openapi"; Method "swagger_ui_html";
    Method "swagger_ui_oauth2_redirect_html"; Method "redoc_html" ].

(** The attribute whose value a documentation handler is registered at. *)
Definition url_attribute (h : handler) : option string :=
  match h with
  | Method m =>
      if String.eqb m "openapi" then Some "openapi_url"
      else if String.eqb m "swagger_ui_html" then Some "docs_url"
      else if String.eqb m "swagger_ui_oauth2_redirect_html"
           then Some "swagger_ui_oauth2_redirect_url"
      else if String.eqb m "redoc_html" then Some "redoc_url"
      else None
  | UserCallable _ => None
  end.

(** The attributes the constructor assigns, in assignment order. *)
Definition assigned_attributes : list string :=
  [ "_debug"; "title"; "description"; "version"; "openapi_url";
    "openapi_tags"; "servers"; "default_response_class"; "docs_url";
    "redoc_url"; "swagger_ui_oauth2_redirect_url"; "swagger_ui_init_oauth";
    "middleware"; "exception_handlers"; "extra" ].

(** The attributes the base constructor adds to them. *)
Definition base_attributes : list string :=
  [ "state"; "user_middleware"; "middleware_stack" ].

(** The router [r] with [more] appended to its routes. *)
Definition with_more (more : list Route) (r : Router) : Router :=
  {| routes := routes r ++ more;
     router_on_startup := router_on_startup r;
     router_on_shutdown := router_on_shutdown r |}.

(** * Properties *)

(** ** Running the monad *)

Lemma getattr_ok k v s : dict s !! k = Some v -> getattr k s = (Ok v, s).
Proof. intros H. unfold getattr. by rewrite H. Qed.

Lemma getattr_missing k s :
  dict s !! k = None -> getattr k s = (Raise (AttributeError k), s).
Proof. intros H. unfold getattr. by rewrite H. Qed.

Lemma bind_ok {A B : Type} (m : M A) (k : A -> M B) s a s' :
  m s = (Ok a, s') -> bind m k s = k a s'.
Proof. intros H. unfold bind. by rewrite H. Qed.

Lemma bind_raise {A B : Type} (m : M A) (k : A -> M B) s e s' :
  m s = (Raise e, s') -> bind m k s = (Raise e, s').
Proof. intros H. unfold bind. by rewrite H. Qed.

Lemma bind_assoc {A B C : Type} (m : M A) (f : A -> M B) (g : B -> M C) s :
  bind (bind m f) g s = bind m (fun x => bind (f x) g) s.
Proof. unfold bind. by destruct (m s) as [[a|e] s']. Qed.

Lemma add_str_ok t suffix s :
  add_str (VStr t) suffix s = (Ok (VStr (t +:+ suffix)), s).
Proof. reflexivity. Qed.

(** Read-only computations compose. *)
Lemma readonly_ret {A : Type} (a : A) : readonly (ret a).
Proof. by intros s. Qed.

Lemma readonly_raise {A : Type} (e : exn) : readonly (@raise A e).
Proof. by intros s. Qed.

Lemma readonly_getattr k : readonly (getattr k).
Proof. intros s. unfold getattr. by destruct (dict s !! k). Qed.

Lemma readonly_add_str x suffix : readonly (add_str x suffix).
Proof. intros s. by destruct x. Qed.

Lemma readonly_bind {A B : Type} (m : M A) (k : A -> M B) :
  readonly m -> (∀ a, readonly (k a)) -> readonly (bind m k).
Proof.
  intros Hm Hk s. unfold bind. specialize (Hm s).
  destruct (m s) as [[a|e] s']; simpl in Hm; subst s'; [apply Hk | done].
Qed.

Create HintDb readonly.
#[local] Hint Resolve readonly_ret readonly_raise readonly_getattr
  readonly_add_str : readonly.

(** ** Route registration, step by step *)

Lemma add_route_run p h b s r :
  router s = Some r ->
  Starlette.add_route p h b s =
  match Starlette.check_path p with
  | None => (Ok tt, with_routes s r [ {| path := p; endpoint := h;
                                         include_in_schema := b |} ])
  | Some e => (Raise e, s)
  end.
Proof.
  intros H. unfold Starlette.add_route, bind, get_router. rewrite H.
  by destruct (Starlette.check_path p).
Qed.

Lemma add_route_ok p h b s r :
  router s = Some r -> Starlette.check_path p = None ->
  Starlette.add_route p h b s =
  (Ok tt, with_routes s r [ {| path := p; endpoint := h;
                               include_in_schema := b |} ]).
Proof. intros H Hp. by rewrite (add_route_run _ _ _ _ _ H), Hp. Qed.

Lemma add_route_dict p h b s :
  dict (snd (Starlette.add_route p h b s)) = dict s.
Proof.
  destruct (router s) as [r|] eqn:Hr.
  - rewrite (add_route_run _ _ _ _ _ Hr). by destruct (Starlette.check_path p).
  - unfold Starlette.add_route, bind, get_router. by rewrite Hr.
Qed.

Lemma with_routes_nil s r : router s = Some r -> with_routes s r [] = s.
Proof.
  intros H. destruct s as [d ro], r as [rs x y]. simpl in *. subst ro.
  unfold with_routes. simpl. by rewrite app_nil_r.
Qed.

Lemma with_routes_twice s r l1 l2 :
  with_routes (with_routes s r l1)
              {| routes := routes r ++ l1;
                 router_on_startup := router_on_startup r;
                 router_on_shutdown := router_on_shutdown r |} l2
  = with_routes s r (l1 ++ l2).
Proof. unfold with_routes. simpl. by rewrite app_assoc. Qed.

(** Registration stops at the first refused path. *)
Lemma accepted_app l1 l2 :
  accepted (l1 ++ l2) =
  accepted l1 ++ match rejection l1 with None => accepted l2 | Some _ => [] end.
Proof.
  induction l1 as [|r l1 IH]; simpl; [done|].
  destruct (Starlette.check_path (path r)); [done|]. by rewrite IH.
Qed.

Lemma rejection_app l1 l2 :
  rejection (l1 ++ l2) =
  match rejection l1 with None => rejection l2 | Some e => Some e end.
Proof.
  induction l1 as [|r l1 IH]; simpl; [done|].
  by destruct (Starlette.check_path (path r)).
Qed.

Lemma accepted_all rs : rejection rs = None → accepted rs = rs.
Proof.
  induction rs as [|r rs IH]; simpl; [done|].
  destruct (Starlette.check_path (path r)); [done|]. intros H. by rewrite IH.
Qed.

Lemma rejection_none rs :
  Forall (λ r, Starlette.check_path (path r) = None) rs → rejection rs = None.
Proof. induction 1 as [|r rs Hr _ IH]; simpl; [done|]. by rewrite Hr. Qed.

Lemma accepted_sublist rs : accepted rs `sublist_of` rs.
Proof.
  induction rs as [|r rs IH]; simpl; [constructor|].
  destruct (Starlette.check_path (path r)).
  - apply sublist_nil_l.
  - by apply sublist_skip.
Qed.

Lemma accepted_elem_of r rs : r ∈ accepted rs → r ∈ rs.
Proof.
  induction rs as [|x rs IH]; simpl; [done|].
  destruct (Starlette.check_path (path x)); [by intros ?%elem_of_nil|].
  intros [->|H]%elem_of_cons; [left | right; auto].
Qed.

Lemma accepted_Forall (P : Route → Prop) rs :
  Forall P rs → Forall P (accepted rs).
Proof.
  induction 1 as [|r rs Hr _ IH]; simpl; [constructor|].
  destruct (Starlette.check_path (path r)); by constructor.
Qed.

Lemma accepted_checked rs :
  Forall (λ r, Starlette.check_path (path r) = None) (accepted rs).
Proof.
  induction rs as [|r rs IH]; simpl; [constructor|].
  destruct (Starlette.check_path (path r)) eqn:E; by constructor.
Qed.

(** A route guarded by its own field. *)
Lemma guard_one k m v s r :
  dict s !! k = Some v -> router s = Some r ->
  let rs := if truthy v then [doc_route v m] else [] in
  (c <- getattr k ;;
   if truthy c then p <- getattr k ;; Starlette.add_route p (Method m) false
   else ret tt) s
  = (outcome_of (rejection rs), with_routes s r (accepted rs)).
Proof.
  intros Hk Hr rs. subst rs. rewrite (bind_ok _ _ _ _ _ (getattr_ok _ _ _ Hk)).
  destruct (truthy v); cbn [accepted rejection path doc_route].
  - rewrite (bind_ok _ _ _ _ _ (getattr_ok _ _ _ Hk)).
    rewrite (add_route_run _ _ _ _ _ Hr).
    destruct (Starlette.check_path v); [|done].
    cbn [outcome_of]. by rewrite with_routes_nil.
  - unfold ret. cbn [outcome_of]. by rewrite with_routes_nil.
Qed.

(** The docs block: two routes under the one guard on [docs_url]. *)
Lemma guard_docs v q s r :
  dict s !! "docs_url" = Some v ->
  dict s !! "swagger_ui_oauth2_redirect_url" = Some q ->
  router s = Some r ->
  let rs := if truthy v
            then [doc_route v "swagger_ui_html";
                  doc_route q "swagger_ui_oauth2_redirect_html"]
            else [] in
  (c <- getattr "docs_url" ;;
   if truthy c then
     p <- getattr "docs_url" ;;
     Starlette.add_route p (Method "swagger_ui_html") false ;;
     q <- getattr "swagger_ui_oauth2_redirect_url" ;;
     Starlette.add_route q (Method "swagger_ui_oauth2_redirect_html") false
   else ret tt) s
  = (outcome_of (rejection rs), with_routes s r (accepted rs)).
Proof.
  intros Hk Hq Hr rs. subst rs.
  rewrite (bind_ok _ _ _ _ _ (getattr_ok _ _ _ Hk)).
  destruct (truthy v); cbn [accepted rejection path doc_route].
  - rewrite (bind_ok _ _ _ _ _ (getattr_ok _ _ _ Hk)).
    pose proof (add_route_run v (Method "swagger_ui_html") false s r Hr) as A1.
    destruct (Starlette.check_path v).
    { rewrite (bind_raise _ _ _ _ _ A1). cbn [outcome_of].
      by rewrite with_routes_nil. }
    rewrite (bind_ok _ _ _ _ _ A1).
    rewrite (bind_ok _ _ _ _ _ (getattr_ok _ _ (with_routes s r _) Hq)).
    rewrite (add_route_run _ _ _ (with_routes s r _) _ eq_refl).
    destruct (Starlette.check_path q); [done|].
    cbn [outcome_of]. by rewrite with_routes_twice.
  - unfold ret. cbn [outcome_of]. by rewrite with_routes_nil.
Qed.

(** ** The constructor in closed form *)

(** Whether it returns or a refused path stops it, the constructor leaves
    the attributes assigned and the router holding the user's routes
    followed by the documentation routes registered so far. *)
Lemma init_run (a : Args) :
  FastAPI.__init__ a blank =
  (outcome_of (rejection (doc_routes a)),
   with_routes {| dict := configured_dict a;
                  router := Some (configured_router a) |}
               (configured_router a) (accepted (doc_routes a))).
Proof.
  unfold FastAPI.__init__, blank.
  cbn [bind setattr set_router get_router Starlette.__init__
       Starlette.Router_new dict router fst snd from_option id routes
       router_on_startup router_on_shutdown].
  change (<["middleware_stack" := _]> _) with (configured_dict a).
  change (Build_Router _ _ _) with (configured_router a).
  set (s0 := {| dict := configured_dict a;
                router := Some (configured_router a) |}).
  unfold doc_routes. cbv zeta.
  set (l1 := if truthy _ then [doc_route _ "openapi"] else []).
  set (l2 := if truthy _ then [doc_route _ "swagger_ui_html"; _] else []).
  set (l3 := if truthy _ then [doc_route _ "redoc_html"] else []).
  rewrite !rejection_app, !accepted_app.
  pose proof (guard_one "openapi_url" "openapi" _ s0 _ eq_refl eq_refl) as G1.
  cbv zeta in G1. fold l1 in G1.
  rewrite <- bind_assoc.
  destruct (rejection l1) as [e1|].
  { rewrite (bind_raise _ _ _ _ _ G1). by rewrite !app_nil_r. }
  rewrite (bind_ok _ _ _ _ _ G1).
  pose proof (guard_docs _ _ (with_routes s0 (configured_router a) (accepted l1))
                (with_more (accepted l1) (configured_router a))
                eq_refl eq_refl eq_refl) as G2.
  cbv zeta in G2. fold l2 in G2.
  rewrite <- bind_assoc.
  destruct (rejection l2) as [e2|].
  { rewrite (bind_raise _ _ _ _ _ G2).
    by rewrite with_routes_twice, !app_nil_r. }
  rewrite (bind_ok _ _ _ _ _ G2). rewrite with_routes_twice.
  pose proof (guard_one "redoc_url" "redoc_html" _
                (with_routes s0 (configured_router a)
                             (accepted l1 ++ accepted l2))
                (with_more (accepted l1 ++ accepted l2) (configured_router a))
                eq_refl eq_refl) as G3.
  cbv zeta in G3. fold l3 in G3. rewrite G3.
  by rewrite with_routes_twice, app_assoc.
Qed.

Lemma construct_dict a : dict (FastAPI.construct a) = configured_dict a.
Proof. unfold FastAPI.construct. by rewrite init_run. Qed.

Lemma construct_router a :
  router (FastAPI.construct a) =
  Some {| routes := user_routes a ++ accepted (doc_routes a);
          router_on_startup :=
            Starlette.list_copy (default VNone (on_startup a));
          router_on_shutdown :=
            Starlette.list_copy (default VNone (on_shutdown a)) |}.
Proof. unfold FastAPI.construct. by rewrite init_run. Qed.

Lemma construct_routes a :
  routes_of (FastAPI.construct a) =
  Ok (user_routes a ++ accepted (doc_routes a)).
Proof. unfold routes_of, FastAPI.construct. by rewrite init_run. Qed.

(** The constructor returns exactly when no documentation path is refused,
    and then every documentation route it tried is registered. *)
Lemma constructed_iff a : constructed a ↔ rejection (doc_routes a) = None.
Proof.
  unfold constructed. rewrite init_run. cbn [fst].
  by destruct (rejection (doc_routes a)).
Qed.

Lemma constructed_routes a :
  constructed a →
  routes_of (FastAPI.construct a) = Ok (user_routes a ++ doc_routes a).
Proof.
  intros H. apply constructed_iff in H.
  by rewrite construct_routes, (accepted_all _ H).
Qed.

Lemma construct_field a k v :
  configured_dict a !! k = Some v ->
  field_set k (FastAPI.construct a) ↔ truthy v = true.
Proof.
  intros H. unfold field_set. rewrite construct_dict. split.
  - intros (w & Hw & Ht). congruence.
  - intros Ht. eauto.
Qed.

(** Whether a route list has a route for a handler is decidable, so on a
    concrete list it is settled by evaluation. *)
Lemma registers_decide h rs :
  registers h rs ↔ bool_decide (Exists (λ r, endpoint r = h) rs) = true.
Proof.
  rewrite bool_decide_eq_true, Exists_exists. reflexivity.
Qed.

(** The constructor never assigns the cache attribute, so the accessor's
    first read of it fails. *)
Lemma openapi_after_construct
    (gen : value -> value -> value -> list Route -> value -> value -> value)
    (a : Args) :
  dict (FastAPI.construct a) !! "openapi_schema" = None ∧
  FastAPI.openapi gen (FastAPI.construct a) =
  (Raise (AttributeError "openapi_schema"), FastAPI.construct a).
Proof.
  assert (H : dict (FastAPI.construct a) !! "openapi_schema" = None)
    by (by rewrite construct_dict).
  split; [done|]. unfold FastAPI.openapi.
  by rewrite (bind_raise _ _ _ _ _ (getattr_missing _ _ H)).
Qed.

(** ** The documentation routes *)

(** Membership of a name in a literal list. *)
Ltac named_key :=
  repeat first [ apply list_elem_of_here | apply list_elem_of_further ].

(** C1 (as amended): for a configuration whose URL fields, where set, are
    paths beginning with a slash, and whose OAuth2 redirect URL is set
    whenever the docs URL is, the constructor returns, and it has registered
    the schema, docs and redoc routes each if and only if the field of their
    own is non-empty, and the OAuth2 redirect route if and only if both the
    docs URL and its own URL are non-empty: the redirect route goes with the
    docs route, so an empty docs URL leaves out both. *)
Theorem doc_routes_follow_their_guards (a : Args) :
  let s := FastAPI.construct a in
  urls_are_paths s →
  (field_set "docs_url" s → field_set "swagger_ui_oauth2_redirect_url" s) →
  constructed a ∧
  ∃ added,
    routes_of s = Ok (user_routes a ++ added) ∧
    (registers (Method "openapi") added ↔ field_set "openapi_url" s) ∧
    (registers (Method "swagger_ui_html") added ↔ field_set "docs_url" s) ∧
    (registers (Method "redoc_html") added ↔ field_set "redoc_url" s) ∧
    (registers (Method "swagger_ui_oauth2_redirect_html") added ↔
       field_set "docs_url" s ∧ field_set "swagger_ui_oauth2_redirect_url" s).
Proof.
  intros s Hp Hd. subst s.
  assert (L : ∀ k v, configured_dict a !! k = Some v →
                     dict (FastAPI.construct a) !! k = Some v)
    by (intros k v H; by rewrite construct_dict).
  pose proof (Hp "openapi_url" _ ltac:(named_key)
                 (L "openapi_url" _ eq_refl)) as Ho.
  pose proof (Hp "docs_url" _ ltac:(named_key) (L "docs_url" _ eq_refl)) as Hdo.
  pose proof (Hp "swagger_ui_oauth2_redirect_url" _ ltac:(named_key)
                 (L "swagger_ui_oauth2_redirect_url" _ eq_refl)) as Hq.
  pose proof (Hp "redoc_url" _ ltac:(named_key) (L "redoc_url" _ eq_refl)) as Hr.
  clear Hp L.
  rewrite (construct_field a "docs_url" _ eq_refl) in Hd.
  rewrite (construct_field a "swagger_ui_oauth2_redirect_url" _ eq_refl) in Hd.
  assert (Hall : Forall (λ r, Starlette.check_path (path r) = None)
                        (doc_routes a)).
  { unfold doc_routes. cbv zeta.
    destruct (truthy (of_optional_str (default _ (openapi_url a))));
      destruct (truthy (of_optional_str (default _ (docs_url a))));
      destruct (truthy (of_optional_str (default _ (redoc_url a))));
      repeat (apply Forall_cons; split; [cbn [path doc_route]; by auto|]);
      by apply Forall_nil. }
  assert (Hc : constructed a) by (by apply constructed_iff, rejection_none).
  split; [exact Hc|].
  exists (doc_routes a). split; [by apply constructed_routes|].
  rewrite (construct_field a "openapi_url" _ eq_refl).
  rewrite (construct_field a "docs_url" _ eq_refl).
  rewrite (construct_field a "redoc_url" _ eq_refl).
  rewrite (construct_field a "swagger_ui_oauth2_redirect_url" _ eq_refl).
  rewrite !registers_decide. clear Hall Hc Ho Hdo Hq Hr.
  unfold doc_routes. cbv zeta.
  destruct (truthy (of_optional_str (default _ (openapi_url a))));
    destruct (truthy (of_optional_str (default _ (docs_url a))));
    destruct (truthy (of_optional_str (default _ (redoc_url a))));
    destruct (truthy (of_optional_str
                        (default _ (swagger_ui_oauth2_redirect_url a))));
    vm_compute; intuition congruence.
Qed.

(** C1 (as stated) fails: with [docs_url=None] the redirect URL keeps its
    non-empty default, yet no redirect route is registered. *)
Lemma redirect_route_is_not_guarded_by_its_own_field :
  ¬ registers_by_own_field docs_disabled.
Proof.
  intros (added & Hr & _ & _ & [_ H] & _).
  rewrite construct_routes in Hr. injection Hr as Hr.
  change (accepted (doc_routes docs_disabled) = added) in Hr. subst added.
  rewrite (construct_field _ "swagger_ui_oauth2_redirect_url" _ eq_refl) in H.
  specialize (H eq_refl). apply registers_decide in H.
  vm_compute in H. discriminate.
Qed.

(** C8: a URL field whose argument is left out takes the default of the
    signature: "/openapi.json", "/docs", "/docs/oauth2-redirect", "/redoc". *)
Theorem documentation_url_defaults (a : Args) :
  let s := FastAPI.construct a in
  (openapi_url a = None → dict s !! "openapi_url" = Some (VStr "/openapi.json")) ∧
  (docs_url a = None → dict s !! "docs_url" = Some (VStr "/docs")) ∧
  (swagger_ui_oauth2_redirect_url a = None →
     dict s !! "swagger_ui_oauth2_redirect_url" =
     Some (VStr "/docs/oauth2-redirect")) ∧
  (redoc_url a = None → dict s !! "redoc_url" = Some (VStr "/redoc")).
Proof.
  intros s. subst s. rewrite construct_dict.
  repeat split; intros H.
  - change (configured_dict a !! "openapi_url") with
      (Some (of_optional_str (default (Some "/openapi.json") (openapi_url a)))).
    by rewrite H.
  - change (configured_dict a !! "docs_url") with
      (Some (of_optional_str (default (Some "/docs") (docs_url a)))).
    by rewrite H.
  - change (configured_dict a !! "swagger_ui_oauth2_redirect_url") with
      (Some (of_optional_str (default (Some "/docs/oauth2-redirect")
                                      (swagger_ui_oauth2_redirect_url a)))).
    by rewrite H.
  - change (configured_dict a !! "redoc_url") with
      (Some (of_optional_str (default (Some "/redoc") (redoc_url a)))).
    by rewrite H.
Qed.

(** ** The schema accessor on a fresh application *)

(** C2: [FastAPI()] is constructed without error, but the constructor leaves
    the instance, whatever the arguments, without an [openapi_schema]
    attribute, and the first call of the accessor raises [AttributeError]
    instead of computing the schema. *)
Theorem openapi_schema_is_never_initialised
    (gen : value -> value -> value -> list Route -> value -> value -> value)
    (a : Args) :
  fst (FastAPI.__init__ no_args blank) = Ok tt ∧
  dict (FastAPI.construct a) !! "openapi_schema" = None ∧
  FastAPI.openapi gen (FastAPI.construct a) =
  (Raise (AttributeError "openapi_schema"), FastAPI.construct a).
Proof.
  split; [by rewrite init_run | apply openapi_after_construct].
Qed.

(** C4: for [FastAPI(title="Inventory", description="Stock levels",
    version="2.1")] the accessor returns no document at all, whatever the
    schema generator: the configured title, version and description never
    reach a caller. *)
Theorem openapi_of_titled_application_raises
    (gen : value -> value -> value -> list Route -> value -> value -> value) :
  dict (FastAPI.construct titled) !! "title" = Some (VStr "Inventory") ∧
  fst (FastAPI.openapi gen (FastAPI.construct titled)) =
  Raise (AttributeError "openapi_schema").
Proof.
  split; [by rewrite construct_dict|].
  by rewrite (proj2 (openapi_after_construct gen titled)).
Qed.

(** ** What a computation reads *)

Lemma reads_ret {A : Type} ks (a : A) : reads ks (ret a).
Proof. by intros s s' _. Qed.

Lemma reads_raise {A : Type} ks (e : exn) : reads ks (@raise A e).
Proof. by intros s s' _. Qed.

Lemma reads_getattr ks k : k ∈ ks → reads ks (getattr k).
Proof.
  intros Hk s s' H. unfold getattr. rewrite (H k Hk).
  by destruct (dict s' !! k).
Qed.

Lemma reads_add_str ks x suffix : reads ks (add_str x suffix).
Proof. intros s s' _. by destruct x. Qed.

Lemma reads_bind {A B : Type} ks (m : M A) (k : A -> M B) :
  readonly m → reads ks m → (∀ a, reads ks (k a)) → reads ks (bind m k).
Proof.
  intros Hro Hm Hk s s' H. unfold bind.
  pose proof (Hro s) as E. pose proof (Hro s') as E'. specialize (Hm s s' H).
  destruct (m s) as [[x|e] t], (m s') as [[x'|e'] t'];
    simpl in *; simplify_eq; [by apply Hk | done].
Qed.

Section Operations.

Variable get_openapi :
  value -> value -> value -> list Route -> value -> value -> value.
Variable get_swagger_ui_html : value -> value -> value -> value -> HTMLResponse.
Variable get_swagger_ui_oauth2_redirect_html : unit -> HTMLResponse.
Variable get_redoc_html : value -> value -> HTMLResponse.

Local Abbreviation openapi := (FastAPI.openapi get_openapi).
Local Abbreviation swagger_ui_html := (FastAPI.swagger_ui_html get_swagger_ui_html).
Local Abbreviation swagger_ui_oauth2_redirect_html :=
  (FastAPI.swagger_ui_oauth2_redirect_html get_swagger_ui_oauth2_redirect_html).
Local Abbreviation redoc_html := (FastAPI.redoc_html get_redoc_html).
Local Abbreviation step :=
  (FastAPI.step get_openapi get_swagger_ui_html
                get_swagger_ui_oauth2_redirect_html get_redoc_html).
Local Abbreviation steps :=
  (FastAPI.steps get_openapi get_swagger_ui_html
                 get_swagger_ui_oauth2_redirect_html get_redoc_html).

Ltac readonly_chain :=
  repeat (apply readonly_bind; [auto with readonly | intros ?]);
  auto with readonly.

Lemma swagger_ui_html_readonly : readonly swagger_ui_html.
Proof using get_swagger_ui_html.
  unfold FastAPI.swagger_ui_html. readonly_chain.
Qed.

Lemma redoc_html_readonly : readonly redoc_html.
Proof using get_redoc_html.
  unfold FastAPI.redoc_html. readonly_chain.
Qed.

Lemma oauth2_redirect_readonly : readonly swagger_ui_oauth2_redirect_html.
Proof using get_swagger_ui_oauth2_redirect_html.
  unfold FastAPI.swagger_ui_oauth2_redirect_html. readonly_chain.
Qed.

Ltac reads_chain :=
  repeat (apply reads_bind;
          [ auto with readonly
          | first [ apply reads_getattr; named_key | apply reads_add_str ]
          | intros ? ]);
  apply reads_ret.

(** ** The cached schema *)

(** A hit: a non-empty cached document is returned as it is, the generator
    is not consulted and the instance is left as it was. *)
Lemma openapi_hit s doc :
  dict s !! "openapi_schema" = Some doc → truthy doc = true →
  openapi s = (Ok doc, s).
Proof.
  intros Hc Ht. unfold FastAPI.openapi.
  rewrite (bind_ok _ _ _ _ _ (getattr_ok _ _ _ Hc)). rewrite Ht. simpl.
  rewrite (bind_ok _ _ s tt s eq_refl). by apply getattr_ok.
Qed.

(** What the accessor returns is what it leaves in the cache. *)
Lemma openapi_returns_cached s doc s1 :
  openapi s = (Ok doc, s1) → dict s1 !! "openapi_schema" = Some doc.
Proof.
  unfold FastAPI.openapi. rewrite <- bind_assoc. unfold bind at 1.
  match goal with |- context [match ?m s with _ => _ end] =>
    destruct (m s) as [[[]|e] s'] end; [|discriminate].
  unfold getattr. destruct (dict s' !! "openapi_schema") eqn:E; [|discriminate].
  intros [= -> ->]. exact E.
Qed.

Lemma step_keeps_cache op s doc :
  dict s !! "openapi_schema" = Some doc → truthy doc = true →
  dict (step op s) !! "openapi_schema" = Some doc.
Proof.
  intros Hc Ht. destruct op; cbn [FastAPI.step].
  - by rewrite (openapi_hit s doc).
  - by rewrite (swagger_ui_html_readonly s).
  - by rewrite (oauth2_redirect_readonly s).
  - by rewrite (redoc_html_readonly s).
  - by rewrite add_route_dict.
Qed.

Lemma steps_keep_cache ops s doc :
  dict s !! "openapi_schema" = Some doc → truthy doc = true →
  dict (steps ops s) !! "openapi_schema" = Some doc.
Proof.
  revert s. induction ops as [|op ops IH]; intros s Hc Ht; [done|].
  simpl. apply IH; [by apply step_keeps_cache | done].
Qed.

(** ** The documentation pages *)

(** C5: on a constructed application whose schema URL field is the string
    [u] (in particular a non-empty one), [swagger_ui_html] returns the page
    the generator makes for [openapi_url = u]; with a generator that embeds
    the URL it is given, the page embeds [u]. *)
Theorem swagger_ui_html_embeds_schema_url (a : Args) (u : string) :
  (∀ u t r o, embeds u (content (get_swagger_ui_html (VStr u) t r o))) →
  dict (FastAPI.construct a) !! "openapi_url" = Some (VStr u) →
  u ≠ "" →
  ∃ t r o,
    swagger_ui_html (FastAPI.construct a) =
    (Ok (get_swagger_ui_html (VStr u) t r o), FastAPI.construct a) ∧
    embeds u (content (get_swagger_ui_html (VStr u) t r o)).
Proof.
  intros Hgen Hu _.
  exists (VStr (default "FastAPI" (title a) +:+ " - Swagger UI")),
         (of_optional_str (default (Some "/docs/oauth2-redirect")
                                   (swagger_ui_oauth2_redirect_url a))),
         (default VNone (swagger_ui_init_oauth a)).
  split; [|apply Hgen].
  unfold FastAPI.swagger_ui_html.
  rewrite (bind_ok _ _ _ _ _ (getattr_ok _ _ _ Hu)).
  rewrite construct_dict in Hu. clear Hu.
  assert (L : ∀ k v, configured_dict a !! k = Some v →
                     getattr k (FastAPI.construct a) = (Ok v, FastAPI.construct a)).
  { intros k v H. apply getattr_ok. by rewrite construct_dict. }
  rewrite (bind_ok _ _ _ _ _ (L "title" _ eq_refl)).
  rewrite (bind_ok _ _ _ _ _ (add_str_ok _ _ _)).
  rewrite (bind_ok _ _ _ _ _ (L "swagger_ui_oauth2_redirect_url" _ eq_refl)).
  rewrite (bind_ok _ _ _ _ _ (L "swagger_ui_init_oauth" _ eq_refl)).
  reflexivity.
Qed.

(** C6: the OAuth2 redirect page is one static document: the accessor reads
    no attribute, returns the same page on every instance and at every
    call, and leaves the instance as it was. *)
Theorem oauth2_redirect_page_is_static :
  (∃ page, ∀ s, swagger_ui_oauth2_redirect_html s = (Ok page, s)) ∧
  reads [] swagger_ui_oauth2_redirect_html ∧
  (∀ s1 s2, fst (swagger_ui_oauth2_redirect_html s1) =
            fst (swagger_ui_oauth2_redirect_html s2)).
Proof.
  split; [by exists (get_swagger_ui_oauth2_redirect_html tt)|].
  split; [apply reads_ret | done].
Qed.

(** C7: [swagger_ui_html] and [redoc_html] leave every attribute and the
    router as they were (the cached schema included), and their outcome is a
    function of the schema URL, the title and the OAuth2 settings, resp. of
    the schema URL and the title. *)
Theorem docs_pages_are_pure :
  readonly swagger_ui_html ∧
  readonly redoc_html ∧
  reads ["openapi_url"; "title"; "swagger_ui_oauth2_redirect_url";
         "swagger_ui_init_oauth"] swagger_ui_html ∧
  reads ["openapi_url"; "title"] redoc_html.
Proof using get_swagger_ui_html get_redoc_html.
  split; [apply swagger_ui_html_readonly|].
  split; [apply redoc_html_readonly|].
  split.
  - unfold FastAPI.swagger_ui_html. reads_chain.
  - unfold FastAPI.redoc_html. reads_chain.
Qed.

End Operations.

(** ** The cached schema, through the life of an application *)

(** C3: once the accessor has returned a (non-empty) schema document, that
    document stays in the cache through any sequence of operations of the
    application, route registration included, and every later call of the
    accessor returns that same document and changes nothing.  The later
    calls do not recompute: they return it whatever generator they are
    given. *)
Theorem openapi_cache_is_stable
    (get_openapi :
       value -> value -> value -> list Route -> value -> value -> value)
    (get_swagger_ui_html : value -> value -> value -> value -> HTMLResponse)
    (get_swagger_ui_oauth2_redirect_html : unit -> HTMLResponse)
    (get_redoc_html : value -> value -> HTMLResponse)
    (s : Instance) (doc : value) (s1 : Instance)
    (ops : list FastAPI.operation) :
  let later :=
    FastAPI.steps get_openapi get_swagger_ui_html
                  get_swagger_ui_oauth2_redirect_html get_redoc_html ops s1 in
  FastAPI.openapi get_openapi s = (Ok doc, s1) →
  truthy doc = true →
  dict later !! "openapi_schema" = Some doc ∧
  FastAPI.openapi get_openapi later = (Ok doc, later) ∧
  ∀ gen, FastAPI.openapi gen later = (Ok doc, later).
Proof.
  intros later Hcall Ht. apply openapi_returns_cached in Hcall.
  pose proof (steps_keep_cache get_openapi get_swagger_ui_html
                get_swagger_ui_oauth2_redirect_html get_redoc_html
                ops s1 doc Hcall Ht) as Hc.
  split; [done|]. split; [|intros gen]; by apply openapi_hit.
Qed.

(** ** The documentation routes and the schema *)

Lemma doc_routes_hidden (a : Args) :
  Forall (λ r, include_in_schema r = false) (doc_routes a).
Proof.
  unfold doc_routes. cbv zeta.
  destruct (truthy (of_optional_str (default _ (openapi_url a))));
    destruct (truthy (of_optional_str (default _ (docs_url a))));
    destruct (truthy (of_optional_str (default _ (redoc_url a))));
    repeat constructor.
Qed.

Lemma registered_doc_routes_hidden (a : Args) :
  Forall (λ r, include_in_schema r = false) (accepted (doc_routes a)).
Proof. apply accepted_Forall, doc_routes_hidden. Qed.

Lemma filter_hidden (rs : list Route) :
  Forall (λ r, include_in_schema r = false) rs →
  List.filter include_in_schema rs = [].
Proof.
  induction 1 as [|r rs Hr _ IH]; [done|]. simpl. by rewrite Hr.
Qed.

(** C10: every route the constructor adds is registered with
    [include_in_schema=False]; hence a schema generator that looks only at
    the routes marked for inclusion produces, from the route list of the
    constructed application, the document it produces from the user's routes
    alone. *)
Theorem documentation_routes_are_hidden (a : Args) :
  ∃ added,
    routes_of (FastAPI.construct a) = Ok (user_routes a ++ added) ∧
    Forall (λ r, include_in_schema r = false) added ∧
    ∀ gen, reads_visible_routes_only gen →
      ∀ t v d tags srv,
        gen t v d (user_routes a ++ added) tags srv =
        gen t v d (user_routes a) tags srv.
Proof.
  exists (accepted (doc_routes a)). split; [apply construct_routes|].
  split; [apply registered_doc_routes_hidden|].
  intros gen Hgen t v d tags srv.
  rewrite (Hgen t v d (user_routes a ++ _)), (Hgen t v d (user_routes a)).
  rewrite List.filter_app, (filter_hidden _ (registered_doc_routes_hidden a)).
  by rewrite app_nil_r.
Qed.

(** ** Loading the module *)

(** C9: executing the file raises [NameError] for [Callable] while the
    signature of [__init__] is evaluated, so the import never completes and
    the class is never bound; with [Callable] imported from [typing] the
    same file loads and binds [FastAPI]. *)
Theorem module_load_raises_NameError :
  Loader.load Loader.applications = Raise (NameError "Callable") ∧
  (¬ ∃ env, Loader.load Loader.applications = Ok env) ∧
  Loader.binds "FastAPI" (Loader.load Loader.applications) = false ∧
  Loader.binds "FastAPI"
    (Loader.load (Loader.ImportFrom "typing" ["Callable"] :: Loader.applications))
  = true.
Proof.
  assert (H : Loader.load Loader.applications = Raise (NameError "Callable"))
    by (vm_compute; reflexivity).
  split; [exact H|]. split.
  - intros [env Henv]. rewrite H in Henv. discriminate.
  - split; [by rewrite H | vm_compute; reflexivity].
Qed.

(** * Concrete runs *)

(** [FastAPI()] is such a configuration: every default URL is a path, the
    docs URL and the redirect URL are both set, and the redirect route is
    registered. *)
Lemma default_application_registers_redirect :
  constructed no_args ∧
  ∃ added,
    routes_of (FastAPI.construct no_args) = Ok (user_routes no_args ++ added) ∧
    registers (Method "swagger_ui_oauth2_redirect_html") added.
Proof.
  assert (F : ∀ k, field_set k (FastAPI.construct no_args) ↔
                   ∃ v, dict (FastAPI.construct no_args) !! k = Some v ∧
                        truthy v = true) by done.
  destruct (doc_routes_follow_their_guards no_args)
    as (Hc & added & Hr & _ & _ & _ & H).
  - intros k v Hk Hl Ht.
    repeat (apply elem_of_cons in Hk as [->|Hk];
            [vm_compute in Hl; injection Hl as <-; reflexivity|]).
    by apply elem_of_nil in Hk.
  - intros _. apply F. eexists. split; [vm_compute; reflexivity | reflexivity].
  - split; [exact Hc|]. exists added. split; [exact Hr|].
    apply H; split; apply F; eexists;
      (split; [vm_compute; reflexivity | reflexivity]).
Defined.

(** [FastAPI()] has the four default URLs. *)
Lemma default_application_urls :
  dict (FastAPI.construct no_args) !! "openapi_url" = Some (VStr "/openapi.json") ∧
  dict (FastAPI.construct no_args) !! "docs_url" = Some (VStr "/docs") ∧
  dict (FastAPI.construct no_args) !! "swagger_ui_oauth2_redirect_url" =
    Some (VStr "/docs/oauth2-redirect") ∧
  dict (FastAPI.construct no_args) !! "redoc_url" = Some (VStr "/redoc").
Proof.
  destruct (documentation_url_defaults no_args) as (H1 & H2 & H3 & H4).
  exact (conj (H1 eq_refl) (conj (H2 eq_refl) (conj (H3 eq_refl) (H4 eq_refl)))).
Defined.

(** On [primed] the accessor computes a document; after a route is added and
    further calls are made, the accessor still returns that document. *)
Lemma primed_application_keeps_its_schema :
  let ops := [ FastAPI.CallAddRoute (VStr "/items") (UserCallable 0) true;
               FastAPI.CallOpenapi; FastAPI.CallSwaggerUiHtml ] in
  let run :=
    FastAPI.steps sample_get_openapi sample_get_swagger_ui_html
                  sample_get_swagger_ui_oauth2_redirect_html
                  sample_get_redoc_html ops in
  ∃ doc s1,
    FastAPI.openapi sample_get_openapi primed = (Ok doc, s1) ∧
    truthy doc = true ∧
    dict (run s1) !! "openapi_schema" = Some doc ∧
    FastAPI.openapi sample_get_openapi (run s1) = (Ok doc, run s1) ∧
    ∀ gen, FastAPI.openapi gen (run s1) = (Ok doc, run s1).
Proof.
  intros ops run.
  pose (r := FastAPI.openapi sample_get_openapi primed).
  pose (doc := match fst r with Ok d => d | Raise _ => VNone end).
  assert (H1 : FastAPI.openapi sample_get_openapi primed = (Ok doc, snd r))
    by (vm_compute; reflexivity).
  assert (H2 : truthy doc = true) by (vm_compute; reflexivity).
  exists doc, (snd r). split; [exact H1|]. split; [exact H2|].
  exact (openapi_cache_is_stable sample_get_openapi sample_get_swagger_ui_html
           sample_get_swagger_ui_oauth2_redirect_html sample_get_redoc_html
           primed doc (snd r) ops H1 H2).
Defined.

(** The sample Swagger page of [FastAPI()] embeds "/openapi.json". *)
Lemma default_swagger_page_embeds_schema_url :
  ∃ page,
    FastAPI.swagger_ui_html sample_get_swagger_ui_html (FastAPI.construct no_args)
    = (Ok page, FastAPI.construct no_args) ∧
    embeds "/openapi.json" (content page).
Proof.
  destruct (swagger_ui_html_embeds_schema_url sample_get_swagger_ui_html
              no_args "/openapi.json") as (t & r & o & H1 & H2).
  - intros u t r o.
    exists "<script>SwaggerUIBundle({url: '",
           ("', oauth2RedirectUrl: '" +:+
            (text r +:+ ("'})</script><title>" +:+ text t))).
    reflexivity.
  - vm_compute. reflexivity.
  - discriminate.
  - eexists. split; [exact H1 | exact H2].
Defined.

(** [FastAPI()] and [primed] differ in the cache attribute only, so they
    render the same pages. *)
Lemma primed_application_renders_same_pages :
  fst (FastAPI.swagger_ui_html sample_get_swagger_ui_html
         (FastAPI.construct no_args)) =
  fst (FastAPI.swagger_ui_html sample_get_swagger_ui_html primed) ∧
  fst (FastAPI.redoc_html sample_get_redoc_html (FastAPI.construct no_args)) =
  fst (FastAPI.redoc_html sample_get_redoc_html primed).
Proof.
  destruct (docs_pages_are_pure sample_get_swagger_ui_html sample_get_redoc_html)
    as (_ & _ & H1 & H2).
  split; [apply H1 | apply H2]; intros k Hk;
    repeat (apply elem_of_cons in Hk as [->|Hk]; [vm_compute; reflexivity|]);
    by apply elem_of_nil in Hk.
Defined.

(** For [FastAPI(routes=[items_route])] the sample generator makes the same
    document with and without the documentation routes. *)
Lemma sample_schema_omits_documentation_routes :
  ∃ added,
    routes_of (FastAPI.construct with_items) = Ok (items_route :: added) ∧
    added ≠ [] ∧
    sample_get_openapi (VStr "FastAPI") (VStr "0.1.0") (VStr "")
                       (items_route :: added) VNone VNone =
    sample_get_openapi (VStr "FastAPI") (VStr "0.1.0") (VStr "")
                       [items_route] VNone VNone.
Proof.
  destruct (documentation_routes_are_hidden with_items) as (added & Hr & _ & H).
  exists added. split; [exact Hr|]. split.
  - intros ->. revert Hr. vm_compute. discriminate.
  - apply (H sample_get_openapi). intros t v d rs tags srv.
    unfold sample_get_openapi.
    assert (E : ∀ l : list Route,
              List.filter include_in_schema (List.filter include_in_schema l)
              = List.filter include_in_schema l).
    { induction l as [|x l IH]; [done|]. simpl.
      destruct (include_in_schema x) eqn:Ex; simpl; by rewrite ?Ex, IH. }
    by rewrite E.
Defined.

(** * Further properties of the class *)

(** ** How the operations treat the instance *)

Section Further.

Variable get_openapi :
  value -> value -> value -> list Route -> value -> value -> value.
Variable get_swagger_ui_html : value -> value -> value -> value -> HTMLResponse.
Variable get_swagger_ui_oauth2_redirect_html : unit -> HTMLResponse.
Variable get_redoc_html : value -> value -> HTMLResponse.

Local Abbreviation openapi := (FastAPI.openapi get_openapi).
Local Abbreviation swagger_ui_html := (FastAPI.swagger_ui_html get_swagger_ui_html).
Local Abbreviation redoc_html := (FastAPI.redoc_html get_redoc_html).
Local Abbreviation step :=
  (FastAPI.step get_openapi get_swagger_ui_html
                get_swagger_ui_oauth2_redirect_html get_redoc_html).
Local Abbreviation steps :=
  (FastAPI.steps get_openapi get_swagger_ui_html
                 get_swagger_ui_oauth2_redirect_html get_redoc_html).

Lemma openapi_frame s :
  router (snd (openapi s)) = router s ∧
  (∀ k, k ≠ "openapi_schema" → dict (snd (openapi s)) !! k = dict s !! k) ∧
  (∀ e, fst (openapi s) = Raise e →
        snd (openapi s) = s ∧ ∃ n, e = AttributeError n).
Proof using get_openapi.
  unfold FastAPI.openapi, Starlette.routes, bind, getattr, get_router, setattr, ret.
  repeat (case_match; simplify_eq/=);
    try match goal with
        | H : <[_:=_]> _ !! _ = None |- _ => by rewrite lookup_insert_eq in H
        end;
    repeat split; try done;
    try (intros k Hk; by rewrite lookup_insert_ne);
    intros; simplify_eq; eauto.
Qed.

Lemma step_frame op s :
  (∀ k, k ≠ "openapi_schema" → dict (step op s) !! k = dict s !! k) ∧
  (dict s !! "openapi_schema" = None →
   dict (step op s) !! "openapi_schema" = None) ∧
  (∃ more, router (step op s) = with_more more <$> router s).
Proof using Type.
  assert (Same : ∃ more, router s = with_more more <$> router s).
  { exists []. destruct (router s) as [[rs x y]|]; [|done].
    unfold with_more. simpl. by rewrite app_nil_r. }
  destruct op; cbn [FastAPI.step].
  - destruct (openapi_frame s) as (Hr & Hd & He).
    split; [done|]. split; [|by rewrite Hr].
    intros Hc.
    pose proof (getattr_missing _ _ Hc) as Hg.
    unfold FastAPI.openapi. by rewrite (bind_raise _ _ _ _ _ Hg).
  - by rewrite (swagger_ui_html_readonly get_swagger_ui_html s).
  - done.
  - by rewrite (redoc_html_readonly get_redoc_html s).
  - split; [intros k _; by rewrite add_route_dict|].
    split; [by rewrite add_route_dict|].
    destruct (router s) as [r|] eqn:Hr.
    + rewrite (add_route_run _ _ _ _ _ Hr).
      destruct (Starlette.check_path p); [|eexists; reflexivity].
      exists []. destruct r as [rs x y]. unfold with_more. simpl.
      by rewrite app_nil_r.
    + exists []. unfold Starlette.add_route, bind, get_router. by rewrite Hr.
Qed.

Lemma with_more_app more1 more2 (r : option Router) :
  with_more more2 <$> (with_more more1 <$> r) = with_more (more1 ++ more2) <$> r.
Proof.
  destruct r as [[rs x y]|]; [|done]. unfold with_more. simpl.
  by rewrite app_assoc.
Qed.

Lemma steps_frame ops s :
  (∀ k, k ≠ "openapi_schema" → dict (steps ops s) !! k = dict s !! k) ∧
  (dict s !! "openapi_schema" = None →
   dict (steps ops s) !! "openapi_schema" = None) ∧
  (∃ more, router (steps ops s) = with_more more <$> router s).
Proof using Type.
  revert s. induction ops as [|op ops IH]; intros s.
  - split; [done|]. split; [done|].
    exists []. cbn. destruct (router s) as [[rs x y]|]; [|done].
    unfold with_more. simpl. by rewrite app_nil_r.
  - change (steps (op :: ops) s) with (steps ops (step op s)).
    destruct (step_frame op s) as (D1 & C1 & [m1 R1]).
    destruct (IH (step op s)) as (D2 & C2 & [m2 R2]).
    split; [intros k Hk; by rewrite D2, D1|].
    split; [auto|].
    exists (m1 ++ m2). by rewrite R2, R1, with_more_app.
Qed.

Lemma primed_with_eq (a : Args) :
  primed_with a =
  {| dict := <["openapi_schema" := VNone]> (configured_dict a);
     router := Some (with_more (accepted (doc_routes a))
                               (configured_router a)) |}.
Proof using Type. unfold primed_with, FastAPI.construct. by rewrite init_run. Qed.

(** A miss: with the cache attribute present and empty, and the
    configuration in place, the accessor calls the generator on the stored
    values and the current routes, stores the document and returns it. *)
Lemma openapi_miss s c t v d r tg sv :
  dict s !! "openapi_schema" = Some c → truthy c = false →
  dict s !! "title" = Some t → dict s !! "version" = Some v →
  dict s !! "description" = Some d → router s = Some r →
  dict s !! "openapi_tags" = Some tg → dict s !! "servers" = Some sv →
  let doc := get_openapi t v d (routes r) tg sv in
  openapi s = (Ok doc, snd (setattr "openapi_schema" doc s)).
Proof using Type.
  intros Hc Ht H1 H2 H3 Hr H4 H5 doc.
  unfold FastAPI.openapi, Starlette.routes, bind, getattr, get_router,
    setattr, ret.
  rewrite Hc, Ht. cbn [negb]. rewrite H1, H2, H3, Hr, H4, H5.
  cbn [dict snd]. rewrite lookup_insert_eq. by rewrite Hr.
Qed.

(** Registering routes one by one appends them to the router's list. *)
Lemma add_routes_run rs s r :
  router s = Some r →
  Forall (λ x, Starlette.check_path (path x) = None) rs →
  steps (add_routes rs) s = with_routes s r rs.
Proof using Type.
  intros Hr Hok. revert s r Hr.
  induction Hok as [|x rs Hx _ IH]; intros s r Hr.
  - by rewrite with_routes_nil.
  - change (steps (add_routes (x :: rs)) s) with
      (steps (add_routes rs)
             (snd (Starlette.add_route (path x) (endpoint x)
                                       (include_in_schema x) s))).
    rewrite (add_route_ok _ _ _ _ _ Hr Hx). cbn [snd].
    rewrite (IH (with_routes s r _) _ eq_refl). unfold with_routes. cbn.
    destruct x. by rewrite <- app_assoc.
Qed.

(** The first computation on a constructed application whose cache
    attribute the caller has assigned [None]. *)
Lemma openapi_on_primed (a : Args) (more : list Route) :
  let s := with_routes (primed_with a)
                       (with_more (accepted (doc_routes a))
                                  (configured_router a)) more in
  let doc :=
    get_openapi (VStr (default "FastAPI" (title a)))
                (VStr (default "0.1.0" (version a)))
                (VStr (default "" (description a)))
                (user_routes a ++ accepted (doc_routes a) ++ more)
                (default VNone (openapi_tags a))
                (default VNone (servers a)) in
  openapi s = (Ok doc, snd (setattr "openapi_schema" doc s)).
Proof using Type.
  intros s doc. subst s doc. rewrite primed_with_eq.
  rewrite app_assoc. unfold with_routes, with_more.
  cbn [dict router routes router_on_startup router_on_shutdown].
  apply (openapi_miss _ VNone _ _ _
           (Build_Router
              ((user_routes a ++ accepted (doc_routes a)) ++ more)
              (Starlette.list_copy (default VNone (on_startup a)))
              (Starlette.list_copy (default VNone (on_shutdown a)))));
    reflexivity.
Qed.

(** On a constructed application whose cache attribute the caller has
    assigned [None], the accessor forwards the stored title, version and
    description, the current routes, the tags and the servers to the
    generator, stores the document and returns it. *)
Theorem openapi_forwards_configuration (a : Args) :
  constructed a →
  let s := snd (setattr "openapi_schema" VNone (FastAPI.construct a)) in
  let doc :=
    get_openapi (VStr (default "FastAPI" (title a)))
                (VStr (default "0.1.0" (version a)))
                (VStr (default "" (description a)))
                (user_routes a ++ doc_routes a)
                (default VNone (openapi_tags a))
                (default VNone (servers a)) in
  openapi s = (Ok doc, snd (setattr "openapi_schema" doc s)).
Proof using Type.
  intros Hc. apply constructed_iff, accepted_all in Hc.
  pose proof (openapi_on_primed a []) as H. cbv zeta in H.
  rewrite Hc, app_nil_r in H.
  rewrite with_routes_nil in H; [exact H|].
  by rewrite primed_with_eq, Hc.
Qed.

(** ** The schema accessor, case by case *)

(** Whatever the instance, the accessor either returns a document, which
    is then the content of the cache, having touched neither the router nor
    any other attribute; or it raises [AttributeError] and leaves the
    instance exactly as it was. *)
Theorem openapi_outcomes s :
  match openapi s with
  | (Ok doc, s') =>
      dict s' !! "openapi_schema" = Some doc ∧
      router s' = router s ∧
      ∀ k, k ≠ "openapi_schema" → dict s' !! k = dict s !! k
  | (Raise e, s') => s' = s ∧ ∃ n, e = AttributeError n
  end.
Proof using Type.
  destruct (openapi_frame s) as (Hr & Hd & He).
  destruct (openapi s) as [[doc|e] s'] eqn:E; simpl in *.
  - split; [by apply (openapi_returns_cached get_openapi s)|]. done.
  - by apply He.
Qed.

(** On an application built by the constructor the accessor raises
    [AttributeError] for [openapi_schema], and it goes on doing so after any
    sequence of operations of the application: none of them creates the
    cache attribute. *)
Theorem openapi_never_succeeds_after_construction (a : Args)
    (ops : list FastAPI.operation) :
  openapi (steps ops (FastAPI.construct a)) =
  (Raise (AttributeError "openapi_schema"), steps ops (FastAPI.construct a)).
Proof using Type.
  destruct (steps_frame ops (FastAPI.construct a)) as (_ & Hc & _).
  specialize (Hc (proj1 (openapi_after_construct get_openapi a))).
  unfold FastAPI.openapi.
  by rewrite (bind_raise _ _ _ _ _ (getattr_missing _ _ Hc)).
Qed.

(** No sequence of operations changes an attribute other than the cache,
    and the router only ever gains routes at the end of its list (its hooks
    stay as they are; an instance without a router stays without). *)
Theorem operations_keep_the_configuration (ops : list FastAPI.operation) s :
  (∀ k, k ≠ "openapi_schema" → dict (steps ops s) !! k = dict s !! k) ∧
  (∃ more, router (steps ops s) = with_more more <$> router s).
Proof using Type.
  destruct (steps_frame ops s) as (H1 & _ & H2). done.
Qed.

(** On an application built by the constructor, after any sequence of
    operations, both documentation pages are produced: [swagger_ui_html]
    passes the stored schema URL (also when it is [None]), the title
    followed by " - Swagger UI", the redirect URL and the OAuth2 settings;
    [redoc_html] passes the schema URL and the title followed by
    " - ReDoc".  Neither changes the instance. *)
Theorem docs_pages_render_for_every_configuration (a : Args)
    (ops : list FastAPI.operation) :
  let s := steps ops (FastAPI.construct a) in
  let url := of_optional_str (default (Some "/openapi.json") (openapi_url a)) in
  let name := default "FastAPI" (title a) in
  swagger_ui_html s =
    (Ok (get_swagger_ui_html url (VStr (name +:+ " - Swagger UI"))
           (of_optional_str (default (Some "/docs/oauth2-redirect")
                                     (swagger_ui_oauth2_redirect_url a)))
           (default VNone (swagger_ui_init_oauth a))), s) ∧
  redoc_html s = (Ok (get_redoc_html url (VStr (name +:+ " - ReDoc"))), s).
Proof using Type.
  intros s url name.
  destruct (steps_frame ops (FastAPI.construct a)) as (Hd & _ & _).
  fold s in Hd.
  assert (L : ∀ k v, k ≠ "openapi_schema" → configured_dict a !! k = Some v →
                     getattr k s = (Ok v, s)).
  { intros k v Hk H. apply getattr_ok. by rewrite Hd, construct_dict. }
  split.
  - unfold FastAPI.swagger_ui_html.
    rewrite (bind_ok _ _ _ _ _ (L "openapi_url" _ ltac:(done) eq_refl)).
    rewrite (bind_ok _ _ _ _ _ (L "title" _ ltac:(done) eq_refl)).
    rewrite (bind_ok _ _ _ _ _ (add_str_ok _ _ _)).
    rewrite (bind_ok _ _ _ _ _
               (L "swagger_ui_oauth2_redirect_url" _ ltac:(done) eq_refl)).
    rewrite (bind_ok _ _ _ _ _ (L "swagger_ui_init_oauth" _ ltac:(done) eq_refl)).
    reflexivity.
  - unfold FastAPI.redoc_html.
    rewrite (bind_ok _ _ _ _ _ (L "openapi_url" _ ltac:(done) eq_refl)).
    rewrite (bind_ok _ _ _ _ _ (L "title" _ ltac:(done) eq_refl)).
    rewrite (bind_ok _ _ _ _ _ (add_str_ok _ _ _)).
    reflexivity.
Qed.

(** On a constructed application, routes with well-formed paths that are
    registered with [add_route] before the first computation of the schema
    are handed to the generator, after the constructor's routes and in
    registration order. *)
Theorem routes_registered_before_first_access_are_forwarded (a : Args)
    (rs : list Route) :
  constructed a →
  Forall (λ r, Starlette.check_path (path r) = None) rs →
  let s := steps (add_routes rs) (primed_with a) in
  let doc :=
    get_openapi (VStr (default "FastAPI" (title a)))
                (VStr (default "0.1.0" (version a)))
                (VStr (default "" (description a)))
                (user_routes a ++ doc_routes a ++ rs)
                (default VNone (openapi_tags a))
                (default VNone (servers a)) in
  openapi s = (Ok doc, snd (setattr "openapi_schema" doc s)).
Proof using Type.
  intros Hc Hok. apply constructed_iff, accepted_all in Hc.
  pose proof (openapi_on_primed a rs) as H. cbv zeta in H.
  rewrite Hc in H.
  rewrite (add_routes_run rs (primed_with a)
             (with_more (doc_routes a) (configured_router a))); [exact H| |done].
  by rewrite primed_with_eq, Hc.
Qed.

(** With a generator that looks only at the routes marked for inclusion,
    the document the accessor computes for an application is the one
    generated from the user's routes alone: the documentation routes leave
    no trace in it. *)
Theorem schema_of_application_leaves_out_documentation_routes (a : Args) :
  reads_visible_routes_only get_openapi →
  fst (openapi (primed_with a)) =
  Ok (get_openapi (VStr (default "FastAPI" (title a)))
                  (VStr (default "0.1.0" (version a)))
                  (VStr (default "" (description a)))
                  (user_routes a)
                  (default VNone (openapi_tags a))
                  (default VNone (servers a))).
Proof using Type.
  intros Hgen.
  pose proof (openapi_on_primed a []) as H. cbv zeta in H.
  rewrite with_routes_nil in H by (by rewrite primed_with_eq).
  rewrite H. cbn [fst]. f_equal. rewrite app_nil_r.
  rewrite (Hgen _ _ _ (user_routes a ++ _)), (Hgen _ _ _ (user_routes a)).
  rewrite List.filter_app, (filter_hidden _ (registered_doc_routes_hidden a)).
  by rewrite app_nil_r.
Qed.

End Further.

Ltac page_iff :=
  split;
  [ intros [? ?]; try discriminate; repeat apply conj; by eexists
  | intros; destruct_and?;
    repeat match goal with
           | H : is_Some None |- _ => by destruct H
           | H : ∃ _, _ |- _ => destruct H
           end;
    try discriminate; eauto ].

(** [swagger_ui_html] returns a page exactly when the four attributes it
    reads exist and the title is a string; [redoc_html] exactly when the
    schema URL exists and the title is a string. *)
Theorem docs_pages_succeed_exactly_when_configured
    (get_swagger_ui_html : value -> value -> value -> value -> HTMLResponse)
    (get_redoc_html : value -> value -> HTMLResponse) (s : Instance) :
  ((∃ page, fst (FastAPI.swagger_ui_html get_swagger_ui_html s) = Ok page) ↔
   is_Some (dict s !! "openapi_url") ∧
   (∃ t, dict s !! "title" = Some (VStr t)) ∧
   is_Some (dict s !! "swagger_ui_oauth2_redirect_url") ∧
   is_Some (dict s !! "swagger_ui_init_oauth")) ∧
  ((∃ page, fst (FastAPI.redoc_html get_redoc_html s) = Ok page) ↔
   is_Some (dict s !! "openapi_url") ∧
   (∃ t, dict s !! "title" = Some (VStr t))).
Proof.
  split.
  - unfold FastAPI.swagger_ui_html, bind, getattr, add_str, ret, raise.
    destruct (dict s !! "openapi_url"); cbn; [|page_iff].
    destruct (dict s !! "title") as [[]|]; cbn; try page_iff.
    destruct (dict s !! "swagger_ui_oauth2_redirect_url"); cbn; [|page_iff].
    destruct (dict s !! "swagger_ui_init_oauth"); cbn; page_iff.
  - unfold FastAPI.redoc_html, bind, getattr, add_str, ret, raise.
    destruct (dict s !! "openapi_url"); cbn; [|page_iff].
    destruct (dict s !! "title") as [[]|]; cbn; page_iff.
Qed.


Ltac run_iff :=
  split;
  [ intros [? H];
    first [ discriminate H
          | eexists; split; [reflexivity|];
            first [ by left | right; repeat apply conj; by eexists ] ]
  | intros (? & ? & Hor); simplify_eq;
    first [ by eexists
          | destruct Hor as [?|?]; [congruence|]; destruct_and?;
            repeat match goal with
                   | H : is_Some None |- _ => by destruct H
                   end ] ].

(** The accessor returns a document exactly when the cache attribute
    exists and either holds a non-empty value or the title, version,
    description, router, tags and servers are all there to compute one. *)
Theorem openapi_succeeds_exactly_when
    (get_openapi :
       value -> value -> value -> list Route -> value -> value -> value)
    (s : Instance) :
  (∃ doc, fst (FastAPI.openapi get_openapi s) = Ok doc) ↔
  ∃ c, dict s !! "openapi_schema" = Some c ∧
       (truthy c = true ∨
        (is_Some (dict s !! "title") ∧ is_Some (dict s !! "version") ∧
         is_Some (dict s !! "description") ∧ is_Some (router s) ∧
         is_Some (dict s !! "openapi_tags") ∧ is_Some (dict s !! "servers"))).
Proof.
  unfold FastAPI.openapi, Starlette.routes, bind, getattr, get_router,
    setattr, ret.
  destruct (dict s !! "openapi_schema") as [c|] eqn:Hc.
  2: { split; [intros [? H] | intros (? & H & _)]; discriminate H. }
  destruct (truthy c) eqn:Ht; cbn [negb fst snd dict].
  { rewrite Hc. run_iff. }
  destruct (dict s !! "title"); cbn; [|run_iff].
  destruct (dict s !! "version"); cbn; [|run_iff].
  destruct (dict s !! "description"); cbn; [|run_iff].
  destruct (router s); cbn; [|run_iff].
  destruct (dict s !! "openapi_tags"); cbn; [|run_iff].
  destruct (dict s !! "servers"); cbn; [|run_iff].
  rewrite lookup_insert_eq. run_iff.
Qed.

(** ** What the constructor leaves on the instance *)

(** Whether it returns or a refused path stops it, the constructor leaves,
    besides the router, exactly eighteen attributes: the fifteen it assigns
    itself, with [debug] stored as [_debug], and the three the base
    constructor adds.  There is no [openapi_schema] among them, and the
    lifecycle hooks are not stored as attributes. *)
Theorem constructed_attributes (a : Args) :
  dom (dict (FastAPI.construct a)) =
  list_to_set (assigned_attributes ++ base_attributes).
Proof.
  rewrite construct_dict.
  unfold configured_dict, assigned_attributes, base_attributes.
  rewrite !dom_insert_L, dom_empty_L. set_solver.
Qed.

(** The configuration attributes hold the argument that was passed,
    unchanged, or the default of the signature when it was left out; the
    extra keywords are kept as a dictionary under [extra].  The handler
    table is the exception: the base constructor stores a copy of it, an
    empty dictionary when none was given.  The lifecycle hooks go to the
    router, as lists, empty when none was given. *)
Theorem constructor_stores_its_arguments (a : Args) :
  let s := FastAPI.construct a in
  dict s !! "_debug" = Some (VBool (default false (debug a))) ∧
  dict s !! "title" = Some (VStr (default "FastAPI" (title a))) ∧
  dict s !! "description" = Some (VStr (default "" (description a))) ∧
  dict s !! "version" = Some (VStr (default "0.1.0" (version a))) ∧
  dict s !! "openapi_url" =
    Some (of_optional_str (default (Some "/openapi.json") (openapi_url a))) ∧
  dict s !! "openapi_tags" = Some (default VNone (openapi_tags a)) ∧
  dict s !! "servers" = Some (default VNone (servers a)) ∧
  dict s !! "default_response_class" =
    Some (default (VClass "JSONResponse") (default_response_class a)) ∧
  dict s !! "docs_url" =
    Some (of_optional_str (default (Some "/docs") (docs_url a))) ∧
  dict s !! "redoc_url" =
    Some (of_optional_str (default (Some "/redoc") (redoc_url a))) ∧
  dict s !! "swagger_ui_oauth2_redirect_url" =
    Some (of_optional_str (default (Some "/docs/oauth2-redirect")
                                   (swagger_ui_oauth2_redirect_url a))) ∧
  dict s !! "swagger_ui_init_oauth" =
    Some (default VNone (swagger_ui_init_oauth a)) ∧
  dict s !! "middleware" = Some (default VNone (middleware a)) ∧
  dict s !! "extra" = Some (VDict (extra a)) ∧
  dict s !! "exception_handlers" =
    Some (match exception_handlers a with
          | None | Some VNone => VDict []
          | Some handlers => handlers
          end) ∧
  ∃ rs, router s =
        Some {| routes := rs;
                router_on_startup :=
                  match on_startup a with
                  | None | Some VNone => VList []
                  | Some hooks => hooks
                  end;
                router_on_shutdown :=
                  match on_shutdown a with
                  | None | Some VNone => VList []
                  | Some hooks => hooks
                  end |}.
Proof.
  intros s. subst s. rewrite construct_dict, construct_router.
  repeat (split; [reflexivity|]).
  split.
  - change (configured_dict a !! "exception_handlers") with
      (Some (Starlette.dict_copy (default VNone (exception_handlers a)))).
    by destruct (exception_handlers a) as [[]|].
  - eexists. do 2 f_equal.
    + by destruct (on_startup a) as [[]|].
    + by destruct (on_shutdown a) as [[]|].
Qed.

(** ** The routes the constructor adds *)

(** The constructor keeps the user's routes first and in order, and adds
    after them only documentation routes: their handlers are a sublist of
    schema, docs, redirect, redoc (so at most four, each at most once, in
    that order), and each is registered at the value of its URL attribute. *)
Theorem constructor_adds_only_documentation_routes (a : Args) :
  let s := FastAPI.construct a in
  ∃ added,
    routes_of s = Ok (user_routes a ++ added) ∧
    (endpoint <$> added) `sublist_of` doc_handlers ∧
    Forall (λ r, ∃ k, url_attribute (endpoint r) = Some k ∧
                      dict s !! k = Some (path r)) added.
Proof.
  intros s. subst s. exists (accepted (doc_routes a)).
  split; [apply construct_routes|]. rewrite construct_dict.
  assert (H : (endpoint <$> doc_routes a) `sublist_of` doc_handlers ∧
              Forall (λ r, ∃ k, url_attribute (endpoint r) = Some k ∧
                                configured_dict a !! k = Some (path r))
                     (doc_routes a)).
  { unfold doc_routes, doc_handlers. cbv zeta.
    destruct (truthy (of_optional_str (default _ (openapi_url a))));
      destruct (truthy (of_optional_str (default _ (docs_url a))));
      destruct (truthy (of_optional_str (default _ (redoc_url a))));
      (split;
       [ cbn; repeat first [ apply sublist_nil | apply sublist_skip
                           | apply sublist_cons ]
       | repeat (apply Forall_cons; split;
                 [eexists; split; reflexivity|]); by apply Forall_nil ]). }
  destruct H as [H1 H2]. split.
  - etransitivity; [|exact H1]. apply fmap_sublist, accepted_sublist.
  - by apply accepted_Forall.
Qed.

(** The OAuth2 redirect route is registered only when both the docs URL and
    its own URL are non-empty, and then at its own URL; with an empty or
    absent docs URL it is never registered, whatever its own URL. *)
Theorem redirect_route_needs_both_urls (a : Args) :
  let s := FastAPI.construct a in
  ∃ added,
    routes_of s = Ok (user_routes a ++ added) ∧
    ∀ r, r ∈ added → endpoint r = Method "swagger_ui_oauth2_redirect_html" →
         field_set "docs_url" s ∧
         field_set "swagger_ui_oauth2_redirect_url" s ∧
         dict s !! "swagger_ui_oauth2_redirect_url" = Some (path r).
Proof.
  intros s. subst s. exists (accepted (doc_routes a)).
  split; [apply construct_routes|].
  intros r Hin He.
  pose proof (proj1 (Forall_forall _ _) (accepted_checked (doc_routes a)) r Hin)
    as Hp.
  apply accepted_elem_of in Hin.
  rewrite (construct_field a "docs_url" _ eq_refl).
  rewrite (construct_field a "swagger_ui_oauth2_redirect_url" _ eq_refl).
  rewrite construct_dict. revert Hin. unfold doc_routes. cbv zeta.
  assert (T : ∀ v, Starlette.check_path v = None → truthy v = true).
  { intros [| |[|c t]| | | | |]; by cbn. }
  destruct (truthy (of_optional_str (default _ (openapi_url a))));
    destruct (truthy (of_optional_str (default _ (docs_url a))));
    destruct (truthy (of_optional_str (default _ (redoc_url a))));
    cbn [app]; intros Hin;
    repeat (apply elem_of_cons in Hin as [->|Hin];
            [first [discriminate He
                   | split; [done|]; split; [exact (T _ Hp) | reflexivity]]|]);
    by apply elem_of_nil in Hin.
Qed.

(** With the sample generator, the schema of
    [FastAPI(routes=[items_route])] lists the user's route only. *)
Lemma sample_schema_of_items_application :
  fst (FastAPI.openapi sample_get_openapi (primed_with with_items)) =
  Ok (sample_get_openapi (VStr "FastAPI") (VStr "0.1.0") (VStr "")
                         [items_route] VNone VNone).
Proof.
  apply (schema_of_application_leaves_out_documentation_routes
           sample_get_openapi with_items).
  intros t v d rs tags srv. unfold sample_get_openapi.
  assert (E : ∀ l : list Route,
            List.filter include_in_schema (List.filter include_in_schema l)
            = List.filter include_in_schema l).
  { induction l as [|x l IH]; [done|]. simpl.
    destruct (include_in_schema x) eqn:Ex; simpl; by rewrite ?Ex, IH. }
  by rewrite E.
Defined.

(** [FastAPI(title="Inventory", ...)] is constructed, and once its cache
    attribute is assigned [None] the sample generator receives its title,
    version and description. *)
Lemma titled_application_forwards_its_title :
  constructed titled ∧
  fst (FastAPI.openapi sample_get_openapi (primed_with titled)) =
  Ok (sample_get_openapi (VStr "Inventory") (VStr "2.1") (VStr "Stock levels")
                         (doc_routes titled) VNone VNone).
Proof.
  assert (Hc : constructed titled) by (vm_compute; reflexivity).
  split; [exact Hc|].
  pose proof (openapi_forwards_configuration sample_get_openapi titled Hc) as H.
  cbv zeta in H. unfold primed_with. rewrite H. reflexivity.
Defined.

(** A route registered on [FastAPI()] before the schema is first computed
    reaches the sample generator after the four documentation routes. *)
Lemma items_route_added_before_first_access_is_forwarded :
  constructed no_args ∧
  Forall (λ r, Starlette.check_path (path r) = None) [items_route] ∧
  fst (FastAPI.openapi sample_get_openapi
         (FastAPI.steps sample_get_openapi sample_get_swagger_ui_html
            sample_get_swagger_ui_oauth2_redirect_html sample_get_redoc_html
            (add_routes [items_route]) (primed_with no_args))) =
  Ok (sample_get_openapi (VStr "FastAPI") (VStr "0.1.0") (VStr "")
                         (doc_routes no_args ++ [items_route]) VNone VNone).
Proof.
  assert (Hc : constructed no_args) by (vm_compute; reflexivity).
  assert (Hok : Forall (λ r, Starlette.check_path (path r) = None)
                       [items_route])
    by (apply Forall_cons; split; [reflexivity | by apply Forall_nil]).
  split; [exact Hc|]. split; [exact Hok|].
  pose proof (routes_registered_before_first_access_are_forwarded
                sample_get_openapi sample_get_swagger_ui_html
                sample_get_swagger_ui_oauth2_redirect_html
                sample_get_redoc_html no_args [items_route] Hc Hok) as H.
  cbv zeta in H. rewrite H. reflexivity.
Defined.
